(** * The conda Ansible module: command construction and output interpretation

    A shallow embedding of [conda.py], the Ansible module that drives the
    [conda] command line, and proofs about its command builder
    ([add_channels_to_command], [add_extras_to_command]), its stdout parser
    ([parse_conda_stdout]), its command runner ([_run_conda_command],
    [_run_conda_package_command]) and the reconciler ([_check_package_installed]
    and [main]).

    Modelling choices.  A Python [str] is a list of characters, a character
    being its Unicode code point; the whitespace of [strip] and [split] is
    that of [str.isspace].  A command line is a list of strings; a parameter
    that may be [None] is an [option]; decoded JSON is a Python value,
    [PyNone] being [None]; the three choices of [state] are an enumeration.
    An exception is a value: pure code returns a [result], and the code that
    runs commands lives in a state-and-exception monad whose state holds the
    outside world and the list of the command lines run so far.
    [module.exit_json] and [module.fail_json] end the process, as in Ansible:
    they raise [SystemExit].  The process runner, the two file system queries
    and the limits of the interpreter ([json.loads] raises [RecursionError]
    on text nested too deep) are parameters of the model. *)

From Stdlib Require Import Ascii String List ZArith NArith Bool Arith Lia.
Import ListNotations.

Set Implicit Arguments.

(** ** Python strings *)

Module PyStr.

(** A character is a code point. *)
Definition char := N.

Definition str := list char.

Definition ch (a : ascii) : char := N_of_ascii a.

(** A string literal. *)
Definition py (s : string) : str := map ch (list_ascii_of_string s).

Definition dquote : char := 34%N.
Definition apostrophe : char := 39%N.
Definition backslash : char := 92%N.
Definition newline : char := 10%N.

(** JSON text is written below with apostrophes where the text has double
    quotes: [js "{'a': 1}"] is the text [{"a": 1}]. *)
Definition js (s : string) : str :=
  map (fun c => if N.eqb c apostrophe then dquote else c) (py s).

Arguments py s : simpl never.
Arguments js s : simpl never.

Fixpoint str_eqb (a b : str) : bool :=
  match a, b with
  | [], [] => true
  | x :: a', y :: b' => N.eqb x y && str_eqb a' b'
  | _, _ => false
  end.

(** [c.isspace()] for one character, which is also what [strip()] removes
    and [split()] splits at: the characters of bidirectional class WS, B or
    S and those of category Zs.  In code points: 9 to 13, 28 to 32, U+0085,
    U+00A0, U+1680, U+2000 to U+200A, U+2028, U+2029, U+202F, U+205F and
    U+3000. *)
Definition isspace (c : char) : bool :=
  ((9 <=? c) && (c <=? 13) || (28 <=? c) && (c <=? 32)
   || (c =? 133) || (c =? 160) || (c =? 5760)
   || (8192 <=? c) && (c <=? 8202)
   || (c =? 8232) || (c =? 8233) || (c =? 8239) || (c =? 8287)
   || (c =? 12288))%N.

(** [s.lstrip()] *)
Fixpoint lstrip (s : str) : str :=
  match s with
  | [] => []
  | c :: s' => if isspace c then lstrip s' else s
  end.

(** [s.rstrip()] *)
Fixpoint rstrip (s : str) : str :=
  match s with
  | [] => []
  | c :: s' =>
      match rstrip s' with
      | [] => if isspace c then [] else [c]
      | r => c :: r
      end
  end.

(** [s.strip()] *)
Definition strip (s : str) : str := rstrip (lstrip s).

(** [s.split("\n")]: never empty, [""] splits into [[""]]. *)
Fixpoint split_lines (s : str) : list str :=
  match s with
  | [] => [[]]
  | c :: s' =>
      if N.eqb c newline then [] :: split_lines s'
      else match split_lines s' with
           | l :: ls => (c :: l) :: ls
           | [] => [[c]]
           end
  end.

(** [s.split()]: the maximal runs of non-space characters. [cur] is the run
    being read, last character first. *)
Fixpoint split_ws_from (cur : str) (s : str) : list str :=
  match s with
  | [] => match cur with [] => [] | _ => [rev cur] end
  | c :: s' =>
      if isspace c
      then match cur with
           | [] => split_ws_from [] s'
           | _ => rev cur :: split_ws_from [] s'
           end
      else split_ws_from (c :: cur) s'
  end.

Definition split_ws (s : str) : list str := split_ws_from [] s.

(** ["".join(ls)] *)
Definition join_empty (ls : list str) : str := concat ls.

(** [needle in hay] for two strings: substring search. *)
Fixpoint is_prefix (p s : str) : bool :=
  match p, s with
  | [], _ => true
  | a :: p', b :: s' => N.eqb a b && is_prefix p' s'
  | _ :: _, [] => false
  end.

Fixpoint contains (needle hay : str) : bool :=
  is_prefix needle hay ||
  match hay with
  | [] => false
  | _ :: hay' => contains needle hay'
  end.

End PyStr.
Export PyStr.

(** ** Python values and [json.loads]

    [json.loads] belongs to Python's standard library, not to this
    repository.  It is modelled after CPython's decoder with its default
    settings: RFC 8259 JSON with any value at top level, the extra constants
    [NaN], [Infinity] and [-Infinity], and strict strings (no control
    character inside a string).  Integers decode to [int]; a number with a
    fraction or an exponent decodes to a [float], kept here as its lexeme.
    An object decodes to a [dict]: keys in order of first appearance, a
    repeated key keeping its last value.

    Besides returning, the decoder raises [ValueError] (a [JSONDecodeError],
    or the error of an integer literal with more digits than the
    interpreter converts) or [RecursionError].  Which of the two depends on
    how far the interpreter is from its recursion limit, and that is a
    parameter, [limits].  Every open array or object takes one level of
    recursion.  An error the scanner finds inside a container (a missing
    delimiter, a bad string, a bad key) is built at that depth and needs
    some levels itself: beyond [error_depth] open containers it comes out
    as [RecursionError].  An error found where a value should start is
    raised from the top of the decoder, and so is the one for text after
    the value; the error of an integer that is too long needs no level.
    [headroom] is how many containers more than [error_depth] can still be
    opened.  The model supposes that [json.loads] can be called and can
    raise from its top: an interpreter with no level left for that is not
    described.  The figures are those of CPython 3.11.

    The decoder makes two passes, both one item at a time and total: a lexer
    from characters to tokens, which stops at the first character it cannot
    place, and a parser from tokens to a value that keeps the open
    containers on a stack.  The library scans a number or a constant and
    then wants a separator or the end of the text; the lexer takes the whole
    run of word characters and the parser checks that the number or constant
    the run starts with is all of it. *)

Module Json.

#[warnings="-register-all"]
Inductive pyval : Type :=
| PyNone
| PyBool (b : bool)
| PyInt (z : Z)
| PyFloat (lexeme : str)
| PyStr (s : str)
| PyList (l : list pyval)
| PyDict (d : list (str * pyval)).

Definition dict := list (str * pyval).

(** [d[k]] for a key that may be missing. *)
Fixpoint dict_get (d : dict) (k : str) : option pyval :=
  match d with
  | [] => None
  | (k', v) :: d' => if str_eqb k k' then Some v else dict_get d' k
  end.

(** [k in d] *)
Definition dict_has (d : dict) (k : str) : bool :=
  match dict_get d k with Some _ => true | None => false end.

(** [d[k] = v] *)
Fixpoint dict_set (d : dict) (k : str) (v : pyval) : dict :=
  match d with
  | [] => [(k, v)]
  | (k', v') :: d' =>
      if str_eqb k k' then (k', v) :: d' else (k', v') :: dict_set d' k v
  end.

(** *** The interpreter's limits *)

Record limits : Type := {
  (** the number of open containers up to which the scanner can still
      raise a [JSONDecodeError] *)
  error_depth : nat;
  (** the number of containers that can be opened beyond that *)
  headroom : nat;
  (** [sys.get_int_max_str_digits()]: the most digits of an integer
      literal, 0 for no limit *)
  max_digits : nat
}.

(** The most containers that can be open at once. *)
Definition max_depth (lim : limits) : nat := error_depth lim + headroom lim.

(** What [json.loads] does: it returns a value, raises [ValueError] or
    raises [RecursionError]. *)
Inductive decoded : Type :=
| Decoded (v : pyval)
| Invalid
| TooDeep.

(** *** Tokens *)

(** [TBadString] is a string the lexer could not read to its closing quote
    and [TBadChar] a character that starts no token; either is the last
    token of a text. *)
Inductive token : Type :=
| TLBrace | TRBrace | TLBracket | TRBracket | TComma | TColon
| TString (raw : str)
| TWord (w : str)
| TBadString
| TBadChar.

Inductive char_class : Type :=
| CSpace
| CPunct (p : token)
| CQuote
| CWord
| CBad.

Definition is_digit (c : char) : bool := ((48 <=? c) && (c <=? 57))%N.

Definition is_letter (c : char) : bool :=
  ((65 <=? c) && (c <=? 90) || (97 <=? c) && (c <=? 122))%N.

(** The four JSON blanks: space, tab, line feed, carriage return. *)
Definition is_json_space (c : char) : bool :=
  ((c =? 32) || (c =? 9) || (c =? 10) || (c =? 13))%N.

Definition is_control (c : char) : bool := (c <? 32)%N.

Definition char_class_of (c : char) : char_class :=
  if is_json_space c then CSpace
  else if N.eqb c (ch "{") then CPunct TLBrace
  else if N.eqb c (ch "}") then CPunct TRBrace
  else if N.eqb c (ch "[") then CPunct TLBracket
  else if N.eqb c (ch "]") then CPunct TRBracket
  else if N.eqb c (ch ",") then CPunct TComma
  else if N.eqb c (ch ":") then CPunct TColon
  else if N.eqb c dquote then CQuote
  else if is_digit c || is_letter c || N.eqb c (ch "-") || N.eqb c (ch "+")
          || N.eqb c (ch ".")
  then CWord
  else CBad.

(** The lexer reads one character at a time.  A word is a maximal run of
    letters, digits, signs and dots (a number or a constant, checked when the
    value is built); a string runs to its closing quote, a backslash
    protecting the character after it. Accumulators hold the characters read
    so far, last first. *)
Inductive lex_state : Type :=
| Between
| InWord (acc : str)
| InString (acc : str)
| InEscape (acc : str).

(** One character: the lexer goes on, or it stops with its last tokens. *)
Inductive lexed : Type :=
| Go (st : lex_state) (out : list token)
| Stop (out : list token).

Definition lex_step (st : lex_state) (c : char) : lexed :=
  match st with
  | Between =>
      match char_class_of c with
      | CSpace => Go Between []
      | CPunct p => Go Between [p]
      | CQuote => Go (InString []) []
      | CWord => Go (InWord [c]) []
      | CBad => Stop [TBadChar]
      end
  | InWord acc =>
      match char_class_of c with
      | CSpace => Go Between [TWord (rev acc)]
      | CPunct p => Go Between [TWord (rev acc); p]
      | CQuote => Go (InString []) [TWord (rev acc)]
      | CWord => Go (InWord (c :: acc)) []
      | CBad => Stop [TWord (rev acc); TBadChar]
      end
  | InString acc =>
      if N.eqb c dquote then Go Between [TString (rev acc)]
      else if N.eqb c backslash then Go (InEscape (c :: acc)) []
      else if is_control c then Stop [TBadString]
      else Go (InString (c :: acc)) []
  | InEscape acc =>
      if is_control c then Stop [TBadString] else Go (InString (c :: acc)) []
  end.

Definition lex_end (st : lex_state) : list token :=
  match st with
  | Between => []
  | InWord acc => [TWord (rev acc)]
  | InString _ | InEscape _ => [TBadString]
  end.

Fixpoint lex (st : lex_state) (s : str) : list token :=
  match s with
  | [] => lex_end st
  | c :: s' =>
      match lex_step st c with
      | Stop out => out
      | Go st' out => out ++ lex st' s'
      end
  end.

(** *** Words: constants and numbers *)

Fixpoint take_digits (s : str) : str * str :=
  match s with
  | c :: s' =>
      if is_digit c
      then let (ds, r) := take_digits s' in (c :: ds, r)
      else ([], s)
  | [] => ([], [])
  end.

Definition Z_of_digits (ds : str) : Z :=
  fold_left (fun acc c => (10 * acc + (Z.of_N c - 48))%Z) ds 0%Z.

(** The integer part at the start of a number: [0], or a non-zero digit and
    the digits after it. *)
Definition take_int_part (s : str) : str * str :=
  match s with
  | c :: r =>
      if N.eqb c (ch "0") then ([c], r)
      else if is_digit c then take_digits s
      else ([], s)
  | [] => ([], [])
  end.

(** The fraction, if there is one: a dot and one digit or more. *)
Definition take_fraction (s : str) : str * str :=
  match s with
  | c :: r =>
      if N.eqb c (ch ".")
      then match take_digits r with
           | ([], _) => ([], s)
           | (ds, r') => (c :: ds, r')
           end
      else ([], s)
  | [] => ([], [])
  end.

(** The exponent, if there is one: [e] or [E], an optional sign and one
    digit or more. *)
Definition take_exponent (s : str) : str * str :=
  match s with
  | e :: r =>
      if N.eqb e (ch "e") || N.eqb e (ch "E")
      then let (sign, r1) :=
             match r with
             | sg :: r0 =>
                 if N.eqb sg (ch "+") || N.eqb sg (ch "-")
                 then ([sg], r0) else ([], r)
             | [] => ([], r)
             end in
           match take_digits r1 with
           | ([], _) => ([], s)
           | (ds, r') => (e :: sign ++ ds, r')
           end
      else ([], s)
  | [] => ([], [])
  end.

(** What the scanner makes of the start of a word: a value and the rest of
    the word, an integer with too many digits, or nothing.  For [NaN],
    [Infinity] and [-Infinity] the scanner calls the decoder's
    [parse_constant], which takes a level of recursion. *)
Inductive scanned : Type :=
| WordValue (v : pyval) (rest : str)
| WordConstant (v : pyval) (rest : str)
| WordTooLong
| WordNone.

(** The longest number a word starts with: an optional minus sign, the
    integer part, an optional fraction and an optional exponent. *)
Definition scan_number (lim : limits) (w : str) : scanned :=
  let (sign, s1) := match w with
                    | c :: r => if N.eqb c (ch "-") then ([c], r) else ([], w)
                    | [] => ([], w)
                    end in
  let (ds, s2) := take_int_part s1 in
  match ds with
  | [] => WordNone
  | _ :: _ =>
      let (fr, s3) := take_fraction s2 in
      let (ex, s4) := take_exponent s3 in
      match fr, ex with
      | [], [] =>
          if (0 <? max_digits lim) && (max_digits lim <? length ds)
          then WordTooLong
          else WordValue (PyInt (match sign with
                                 | [] => Z_of_digits ds
                                 | _ => - Z_of_digits ds
                                 end)) s4
      | _, _ => WordValue (PyFloat (sign ++ ds ++ fr ++ ex)) s4
      end
  end.

Definition scan_word (lim : limits) (w : str) : scanned :=
  if is_prefix (py "null") w then WordValue PyNone (skipn 4 w)
  else if is_prefix (py "true") w then WordValue (PyBool true) (skipn 4 w)
  else if is_prefix (py "false") w then WordValue (PyBool false) (skipn 5 w)
  else if is_prefix (py "NaN") w
  then WordConstant (PyFloat (py "NaN")) (skipn 3 w)
  else if is_prefix (py "Infinity") w
  then WordConstant (PyFloat (py "Infinity")) (skipn 8 w)
  else if is_prefix (py "-Infinity") w
  then WordConstant (PyFloat (py "-Infinity")) (skipn 9 w)
  else scan_number lim w.

(** *** String bodies: escapes *)

Definition hex_value (c : char) : option N :=
  if is_digit c then Some (c - 48)%N
  else if ((97 <=? c) && (c <=? 102))%N then Some (c - 87)%N
  else if ((65 <=? c) && (c <=? 70))%N then Some (c - 55)%N
  else None.

Definition hex4 (a b c d : char) : option N :=
  match hex_value a, hex_value b, hex_value c, hex_value d with
  | Some x, Some y, Some z, Some t => Some (((x * 16 + y) * 16 + z) * 16 + t)%N
  | _, _, _, _ => None
  end.

Definition simple_escape (c : char) : option char :=
  if N.eqb c dquote then Some dquote
  else if N.eqb c backslash then Some backslash
  else if N.eqb c (ch "/") then Some (ch "/")
  else if N.eqb c (ch "b") then Some 8%N
  else if N.eqb c (ch "f") then Some 12%N
  else if N.eqb c (ch "n") then Some 10%N
  else if N.eqb c (ch "r") then Some 13%N
  else if N.eqb c (ch "t") then Some 9%N
  else None.

Definition is_high_surrogate (n : N) : bool := (55296 <=? n)%N && (n <=? 56319)%N.
Definition is_low_surrogate (n : N) : bool := (56320 <=? n)%N && (n <=? 57343)%N.

(** The code point of [\uXXXX] escapes: a high surrogate and the low one
    that follows it make one code point. *)
Definition join_surrogates (hi lo : N) : N :=
  (65536 + (hi - 55296) * 1024 + (lo - 56320))%N.

(** The characters of a string body with its escapes replaced; a surrogate
    that has no partner stays as it is. *)
Fixpoint unescape (s : str) : option str :=
  match s with
  | [] => Some []
  | c :: r =>
      if negb (N.eqb c backslash) then option_map (cons c) (unescape r)
      else
        match r with
        | [] => None
        | e :: r1 =>
            if negb (N.eqb e (ch "u"))
            then match simple_escape e with
                 | Some x => option_map (cons x) (unescape r1)
                 | None => None
                 end
            else
              match r1 with
              | h1 :: h2 :: h3 :: h4 :: r2 =>
                  match hex4 h1 h2 h3 h4 with
                  | None => None
                  | Some hi =>
                      let alone := option_map (cons hi) (unescape r2) in
                      match r2 with
                      | b :: u :: l1 :: l2 :: l3 :: l4 :: r3 =>
                          match hex4 l1 l2 l3 l4 with
                          | Some lo =>
                              if is_high_surrogate hi && is_low_surrogate lo
                                 && N.eqb b backslash && N.eqb u (ch "u")
                              then option_map
                                     (cons (join_surrogates hi lo))
                                     (unescape r3)
                              else alone
                          | None => alone
                          end
                      | _ => alone
                      end
                  end
              | _ => None
              end
        end
  end.

(** *** Values from tokens

    The parser keeps a stack of the containers that are open and the phase it
    is in: what may come next. *)

Inductive frame : Type :=
| FList (acc : list pyval)        (* an array, its elements last first *)
| FDict (d : dict)                (* an object, waiting for a key *)
| FKey (d : dict) (k : str).      (* an object, waiting for the value of [k] *)

Inductive phase : Type :=
| WantValue
| WantValueOrClose
| WantKey
| WantKeyOrClose
| WantColon
| HaveValue (v : pyval).

Definition parse_state : Type := list frame * phase.

(** One token: the parser goes on, or the decoder raises. *)
Inductive step : Type :=
| Next (st : parse_state)
| RaiseValueError
| RaiseRecursionError.

(** An error the scanner builds where it stands, inside the containers of
    [stack]. *)
Definition error_here (lim : limits) (stack : list frame) : step :=
  if length stack <=? error_depth lim then RaiseValueError
  else RaiseRecursionError.

(** A container opens if the interpreter has a level left for it. *)
Definition open (lim : limits) (stack : list frame) (f : frame) (ph : phase)
  : step :=
  if length stack <? max_depth lim then Next (f :: stack, ph)
  else RaiseRecursionError.

(** The value a word starts with is the value of the word if nothing
    follows it in the word. *)
Definition whole_word (lim : limits) (stack : list frame) (v : pyval)
    (rest : str) : step :=
  match rest with
  | [] => Next (stack, HaveValue v)
  | _ :: _ => error_here lim stack
  end.

(** Where a value should start.  Anything that starts no value is reported
    from the top of the decoder; a string with a bad escape, and what
    follows the number or constant at the start of a word, where the
    scanner stands. *)
Definition begin_value (lim : limits) (stack : list frame) (t : token) : step :=
  match t with
  | TString raw =>
      match unescape raw with
      | Some s => Next (stack, HaveValue (PyStr s))
      | None => error_here lim stack
      end
  | TBadString => error_here lim stack
  | TWord w =>
      match scan_word lim w with
      | WordValue v rest => whole_word lim stack v rest
      | WordConstant v rest =>
          if length stack <? max_depth lim then whole_word lim stack v rest
          else RaiseRecursionError
      | WordTooLong => RaiseValueError
      | WordNone => RaiseValueError
      end
  | TLBracket => open lim stack (FList []) WantValueOrClose
  | TLBrace => open lim stack (FDict []) WantKeyOrClose
  | _ => RaiseValueError
  end.

Definition begin_key (lim : limits) (stack : list frame) (t : token) : step :=
  match t, stack with
  | TString raw, FDict d :: stack' =>
      match unescape raw with
      | Some k => Next (FKey d k :: stack', WantColon)
      | None => error_here lim stack
      end
  | _, _ => error_here lim stack
  end.

Definition parse_step (lim : limits) (st : parse_state) (t : token) : step :=
  let (stack, ph) := st in
  match ph with
  | WantValue => begin_value lim stack t
  | WantValueOrClose =>
      match t, stack with
      | TRBracket, FList acc :: stack' =>
          Next (stack', HaveValue (PyList (rev acc)))
      | _, _ => begin_value lim stack t
      end
  | WantKey => begin_key lim stack t
  | WantKeyOrClose =>
      match t, stack with
      | TRBrace, FDict d :: stack' => Next (stack', HaveValue (PyDict d))
      | _, _ => begin_key lim stack t
      end
  | WantColon =>
      match t with
      | TColon => Next (stack, WantValue)
      | _ => error_here lim stack
      end
  | HaveValue v =>
      match stack, t with
      | FList acc :: stack', TComma =>
          Next (FList (v :: acc) :: stack', WantValue)
      | FList acc :: stack', TRBracket =>
          Next (stack', HaveValue (PyList (rev (v :: acc))))
      | FKey d k :: stack', TComma =>
          Next (FDict (dict_set d k v) :: stack', WantKey)
      | FKey d k :: stack', TRBrace =>
          Next (stack', HaveValue (PyDict (dict_set d k v)))
      | _, _ => error_here lim stack
      end
  end.

(** The end of the text: it is a value when the tokens end with one value
    and nothing open. *)
Definition parse_end (lim : limits) (st : parse_state) : decoded :=
  match st with
  | ([], HaveValue v) => Decoded v
  | (_, WantValue) | (_, WantValueOrClose) => Invalid
  | (stack, _) =>
      if length stack <=? error_depth lim then Invalid else TooDeep
  end.

Fixpoint parse (lim : limits) (st : parse_state) (ts : list token) : decoded :=
  match ts with
  | [] => parse_end lim st
  | t :: ts' =>
      match parse_step lim st t with
      | Next st' => parse lim st' ts'
      | RaiseValueError => Invalid
      | RaiseRecursionError => TooDeep
      end
  end.

Definition parse_tokens (lim : limits) (ts : list token) : decoded :=
  parse lim ([], WantValue) ts.

(** [json.loads(s)] *)
Definition loads (lim : limits) (s : str) : decoded :=
  parse_tokens lim (lex Between s).

End Json.
Export Json.

(** ** Errors and results *)

(** What [module.exit_json] and [module.fail_json] report before they end the
    process; keyword arguments are kept as pairs. *)
Inductive exit_report : Type :=
| ExitJson (kwargs : list (str * pyval))
| FailJson (msg : str).

(** The exceptions that can leave a function of the module.  The classes
    [CondaPackageNotFoundError] and [CondaUnexpectedOutputError] name their
    initialiser [__int__], so Python never calls it: an instance only holds
    the positional arguments it was built from, which are the fields here. *)
Inductive exn : Type :=
| TypeError
| KeyError
| RecursionError
| CondaCommandError (command : list str) (error_message : pyval)
                    (output : pyval) (stdout stderr : str)
| CondaPackageNotFoundError (name : str) (version : option str)
| CondaUnexpectedOutputError (output : pyval) (stderr : str)
| SystemExit (report : exit_report).

Inductive result (A : Type) : Type :=
| Ok (a : A)
| Raise (e : exn).

Arguments Ok {A} a.
Arguments Raise {A} e.

Definition rbind {A B : Type} (r : result A) (k : A -> result B) : result B :=
  match r with
  | Ok a => k a
  | Raise e => Raise e
  end.

(** ** Operators on decoded values *)

(** [k in v] for a string [k]: a key of a dict, an element of a list, a
    substring of a string; anything else is not iterable. *)
Definition py_in (k : str) (v : pyval) : result bool :=
  match v with
  | PyDict d => Ok (dict_has d k)
  | PyList l =>
      Ok (existsb (fun e => match e with
                            | PyStr s => str_eqb s k
                            | _ => false
                            end) l)
  | PyStr s => Ok (contains k s)
  | _ => Raise TypeError
  end.

(** [v[k]] for a string [k]. *)
Definition py_getitem (v : pyval) (k : str) : result pyval :=
  match v with
  | PyDict d => match dict_get d k with
                | Some x => Ok x
                | None => Raise KeyError
                end
  | _ => Raise TypeError
  end.

(** [len(v)]; the module only asks whether it is zero. *)
Definition py_len (v : pyval) : result nat :=
  match v with
  | PyStr s => Ok (length s)
  | PyList l => Ok (length l)
  | PyDict d => Ok (length d)
  | _ => Raise TypeError
  end.

(** [v == s] for a string [s]. *)
Definition py_eq_str (v : pyval) (s : str) : bool :=
  match v with
  | PyStr s' => str_eqb s' s
  | _ => false
  end.

(** [v is None] *)
Definition is_none (v : pyval) : bool :=
  match v with
  | PyNone => true
  | _ => false
  end.

(** ** The command builder *)

Definition command : Type := list str.

(** The loop of [add_channels_to_command]: ["--channel"] before each channel. *)
Fixpoint dashc (channels : list str) : list str :=
  match channels with
  | [] => []
  | channel :: rest => py "--channel" :: channel :: dashc rest
  end.

Definition add_channels_to_command (cmd : command) (channels : option str)
  : command :=
  match channels with
  | Some ((_ :: _) as ch) =>
      firstn 2 cmd ++ dashc (split_ws (strip ch)) ++ skipn 2 cmd
  | _ => cmd
  end.

Definition add_extras_to_command (cmd : command) (extras : option str)
  : command :=
  match extras with
  | Some ((_ :: _) as ex) => firstn 2 cmd ++ split_ws (strip ex) ++ skipn 2 cmd
  | _ => cmd
  end.

Definition get_install_target (name : str) (version : option str) : str :=
  match version with
  | Some v => name ++ py "=" ++ v
  | None => name
  end.

(** ** The output parser *)

(** The [while] loop of [parse_conda_stdout] over the lines left: it returns
    the value to return ([inl]) or, when it ends without one, the lines that
    remain ([inr]).  A line on which [json.loads] raises [ValueError] is
    put back and ends the loop; a [RecursionError] is not caught. *)
Fixpoint skip_progress (lim : limits) (split_lines : list str)
  : result (pyval + list str) :=
  match split_lines with
  | [] => Ok (inr [])
  | line :: rest =>
      match loads lim line with
      | Invalid => Ok (inr (line :: rest))
      | TooDeep => Raise RecursionError
      | Decoded line_content =>
          rbind (py_in (py "progress") line_content) (fun has_progress =>
          if has_progress then skip_progress lim rest
          else
            rbind (py_in (py "maxval") line_content) (fun has_maxval =>
            if has_maxval then skip_progress lim rest
            else Ok (inl line_content)))
      end
  end.

(** [parse_conda_stdout(stdout)]; [PyNone] is the [None] it returns when
    nothing decodes.  Both [try] statements catch [ValueError] only: a
    [RecursionError] of [json.loads] leaves the function. *)
Definition parse_conda_stdout (lim : limits) (stdout : str) : result pyval :=
  rbind (skip_progress lim (split_lines (strip stdout))) (fun r =>
  match r with
  | inl line_content => Ok line_content
  | inr remaining =>
      match loads lim (join_empty remaining) with
      | Decoded v => Ok v
      | Invalid => Ok PyNone
      | TooDeep => Raise RecursionError
      end
  end).

(** ** The module and its collaborators *)

(** [state] has the three choices of the argument specification. *)
Inductive desired_state : Type := Present | Absent | Latest.

(** [module.params] *)
Record params : Type := {
  name : str;
  version : option str;
  state : desired_state;
  channels : option str;
  executable : option str;
  extra_args : option str
}.

Record AnsibleModule : Type := {
  module_params : params;
  check_mode : bool
}.

Section Conda.

(** The outside world: what running a command line answers (exit code,
    stdout, stderr) and how it changes the world, and the two file system
    queries of [_find_conda]; and the limits of the interpreter where the
    module calls [json.loads]. *)
Variable World : Type.
Variable lim : limits.
Variable run_process : World -> command -> (Z * str * str) * World.
Variable find_executable : str -> option str.
Variable isfile : str -> bool.

(** The state threaded through the module: the world, and the command lines
    given to [module.run_command] so far, oldest first. *)
Record mstate : Type := {
  world : World;
  issued : list command
}.

(** A computation returns or raises, and leaves a state. *)
Definition M (A : Type) : Type := mstate -> result A * mstate.

Definition ret {A : Type} (a : A) : M A := fun s => (Ok a, s).

Definition raise {A : Type} (e : exn) : M A := fun s => (Raise e, s).

Definition bind {A B : Type} (m : M A) (k : A -> M B) : M B :=
  fun s =>
    match m s with
    | (Ok a, s') => k a s'
    | (Raise e, s') => (Raise e, s')
    end.

Definition lift {A : Type} (r : result A) : M A := fun s => (r, s).

(** [try: m except ...: handler], the handler choosing by the exception:
    [None] for an exception the clause does not catch. *)
Definition try_except {A : Type} (m : M A) (handler : exn -> option (M A))
  : M A :=
  fun s =>
    match m s with
    | (Ok a, s') => (Ok a, s')
    | (Raise e, s') =>
        match handler e with
        | Some h => h s'
        | None => (Raise e, s')
        end
    end.

Notation "x <- m ;; k" := (bind m (fun x => k))
  (at level 61, m at next level, right associativity).
Notation "' p <- m ;; k" := (bind m (fun x => let p := x in k))
  (at level 61, p pattern, m at next level, right associativity).

(** [module.run_command(command)] *)
Definition run_command (cmd : command) : M (Z * str * str) :=
  fun s =>
    let (out, w) := run_process (world s) cmd in
    (Ok out, {| world := w; issued := issued s ++ [cmd] |}).

(** [module.exit_json(changed=...)] and [module.fail_json(msg=...)] end the
    process: they raise [SystemExit], which no clause of the module catches. *)
Definition exit_json {A : Type} (kwargs : list (str * pyval)) : M A :=
  raise (SystemExit (ExitJson kwargs)).

Definition fail_json {A : Type} (msg : str) : M A :=
  raise (SystemExit (FailJson msg)).

Definition _find_conda (executable : option str) : M str :=
  let fail := fail_json (py "could not find conda executable") in
  match executable with
  | Some ((_ :: _) as path) => if isfile path then ret path else fail
  | _ =>
      match find_executable (py "conda") with
      | Some ((_ :: _) as conda) => ret conda
      | _ => fail
      end
  end.

Definition _run_conda_command (module : AnsibleModule) (cmd : command)
  : M (pyval * str) :=
  let cmd := add_channels_to_command cmd (channels (module_params module)) in
  let cmd := add_extras_to_command cmd (extra_args (module_params module)) in
  '(rc, stdout, stderr) <- run_command cmd ;;
  parsed_stdout <- lift (parse_conda_stdout lim stdout) ;;
  if negb (rc =? 0)%Z || is_none parsed_stdout
  then
    error_message <-
      (if is_none parsed_stdout then ret PyNone
       else
         has_message <- lift (py_in (py "message") parsed_stdout) ;;
         if has_message then lift (py_getitem parsed_stdout (py "message"))
         else ret PyNone) ;;
    raise (CondaCommandError cmd error_message parsed_stdout stdout stderr)
  else ret (parsed_stdout, stderr).

(** The test of the [except] clause of [_run_conda_package_command]. *)
Definition is_package_not_found (output : pyval) : result bool :=
  if is_none output then Ok false
  else
    rbind (py_in (py "exception_name") output) (fun has_name =>
    if has_name
    then rbind (py_getitem output (py "exception_name")) (fun exception_name =>
         Ok (py_eq_str exception_name (py "PackageNotFoundError")))
    else Ok false).

Definition _run_conda_package_command (module : AnsibleModule) (name : str)
    (version : option str) (cmd : command) : M (pyval * str) :=
  try_except (_run_conda_command module cmd) (fun e =>
    match e with
    | CondaCommandError _ _ output _ _ =>
        Some (not_found <- lift (is_package_not_found output) ;;
              if not_found then raise (CondaPackageNotFoundError name version)
              else raise e)
    | _ => None
    end).

(** [l.insert(-1, x)]: [x] goes before the last element. *)
Definition insert_before_last {A : Type} (x : A) (l : list A) : list A :=
  match l with
  | [] => [x]
  | _ => removelast l ++ [x; last l x]
  end.

Definition already_installed_message : str :=
  py "All requested packages already installed.".

Definition _check_package_installed (module : AnsibleModule) (conda : str)
    (name : str) (version : option str) : M bool :=
  '(output, stderr) <-
    _run_conda_package_command module name version
      [conda; py "install"; py "--json"; py "--dry-run";
       get_install_target name version] ;;
  has_message <- lift (py_in (py "message") output) ;;
  message_matches <-
    (if has_message
     then message <- lift (py_getitem output (py "message")) ;;
          ret (py_eq_str message already_installed_message)
     else ret false) ;;
  if message_matches then ret true
  else
    has_actions <- lift (py_in (py "actions") output) ;;
    actions_planned <-
      (if has_actions
       then actions <- lift (py_getitem output (py "actions")) ;;
            n <- lift (py_len actions) ;;
            ret (0 <? n)
       else ret false) ;;
    if actions_planned then ret false
    else raise (CondaUnexpectedOutputError output stderr).

Definition opt_str (s : option str) : pyval :=
  match s with
  | Some v => PyStr v
  | None => PyNone
  end.

Definition _install_package (module : AnsibleModule) (conda : str)
    (name : str) (version : option str) : M unit :=
  let cmd := [conda; py "install"; py "--yes"; py "--json";
              get_install_target name version] in
  let cmd := if check_mode module
             then insert_before_last (py "--dry-run") cmd else cmd in
  '(output, stderr) <- _run_conda_package_command module name version cmd ;;
  exit_json [(py "changed", PyBool true); (py "name", PyStr name);
             (py "version", opt_str version); (py "output", output);
             (py "error", PyStr stderr)].

Definition _uninstall_package (module : AnsibleModule) (conda : str)
    (name : str) : M unit :=
  let cmd := [conda; py "remove"; py "--yes"; py "--json"; name] in
  let cmd := if check_mode module
             then insert_before_last (py "--dry-run") cmd else cmd in
  '(output, stderr) <- _run_conda_package_command module name None cmd ;;
  exit_json [(py "changed", PyBool true); (py "output", output);
             (py "error", PyStr stderr)].

Definition is_absent (st : desired_state) : bool :=
  match st with Absent => true | _ => false end.

Definition is_latest (st : desired_state) : bool :=
  match st with Latest => true | _ => false end.

Definition is_some {A : Type} (o : option A) : bool :=
  match o with Some _ => true | None => false end.

Definition version_conflict_message : str :=
  js "`version` must not be set if `state == 'latest'` (`latest` upgrades to newest version)".

(** [main()], from the module already built from its arguments. *)
Definition main (module : AnsibleModule) : M unit :=
  let p := module_params module in
  conda <- _find_conda (executable p) ;;
  _ <- (if is_latest (state p) && is_some (version p)
        then fail_json version_conflict_message else ret tt) ;;
  correct_version_installed <-
    _check_package_installed module conda (name p) (version p) ;;
  _ <- (if negb correct_version_installed && negb (is_absent (state p))
        then _install_package module conda (name p) (version p) else ret tt) ;;
  _ <- (if is_absent (state p)
        then try_except (_uninstall_package module conda (name p)) (fun e =>
               match e with
               | CondaPackageNotFoundError _ _ => Some (ret tt)
               | _ => None
               end)
        else ret tt) ;;
  exit_json [(py "changed", PyBool false)].

(** A run of the module from a world in which no command has been issued. *)
Definition run_main (module : AnsibleModule) (w : World)
  : result unit * mstate :=
  main module {| world := w; issued := [] |}.

End Conda.

Arguments _find_conda {World} find_executable isfile executable _.
Arguments run_command {World} run_process cmd _.
Arguments _run_conda_command {World} lim run_process module cmd _.
Arguments _run_conda_package_command {World} lim run_process module name version cmd _.
Arguments _check_package_installed {World} lim run_process module conda name version _.
Arguments _install_package {World} lim run_process module conda name version _.
Arguments _uninstall_package {World} lim run_process module conda name _.
Arguments main {World} lim run_process find_executable isfile module _.
Arguments run_main {World} lim run_process find_executable isfile module w.

(** * Vocabulary of the properties *)

(** ** Parameters and command lines *)

(** The tokens of an optional whitespace-delimited parameter. *)
Definition tokens_of (o : option str) : list str :=
  match o with
  | Some s => split_ws (strip s)
  | None => []
  end.

(** A parameter that is [None], empty or made of whitespace only, the
    whitespace being that of [str.isspace]. *)
Definition blank (o : option str) : Prop :=
  match o with
  | Some s => Forall (fun c => isspace c = true) s
  | None => True
  end.

(** The command line [_run_conda_command] hands to the process. *)
Definition final_command (module : AnsibleModule) (cmd : command) : command :=
  add_extras_to_command
    (add_channels_to_command cmd (channels (module_params module)))
    (extra_args (module_params module)).

(** The command line of the dry-run query. *)
Definition query_command (conda name : str) (version : option str) : command :=
  [conda; py "install"; py "--json"; py "--dry-run";
   get_install_target name version].

(** ** Outcomes *)

(** A parsed result that is an object whose [exception_name] is the marker
    of a package that was not found. *)
Definition has_not_found_marker (output : pyval) : bool :=
  match output with
  | PyDict d => match dict_get d (py "exception_name") with
                | Some v => py_eq_str v (py "PackageNotFoundError")
                | None => false
                end
  | _ => false
  end.

(** How [main] ends when nothing had to change: [exit_json(changed=False)]. *)
Definition unchanged : result unit :=
  Raise (SystemExit (ExitJson [(py "changed", PyBool false)])).

(** The state before any command. *)
Definition start {World : Type} (w : World) : mstate World :=
  {| world := w; issued := [] |}.

(** The functions of the module that talk to the process do so once and
    then compute on its answer.  These are the computations, without the
    state. *)

(** The message [_run_conda_command] gives a [CondaCommandError]. *)
Definition tool_error_message (parsed_stdout : pyval) : result pyval :=
  if is_none parsed_stdout then Ok PyNone
  else rbind (py_in (py "message") parsed_stdout) (fun has_message =>
       if has_message then py_getitem parsed_stdout (py "message")
       else Ok PyNone).

(** What [_run_conda_command] does with the answer of the process to the
    command line [cmd]. *)
Definition runner_outcome (lim : limits) (cmd : command)
    (answer : Z * str * str) : result (pyval * str) :=
  let '(rc, stdout, stderr) := answer in
  rbind (parse_conda_stdout lim stdout) (fun parsed_stdout =>
  if negb (rc =? 0)%Z || is_none parsed_stdout
  then rbind (tool_error_message parsed_stdout) (fun error_message =>
       Raise (CondaCommandError cmd error_message parsed_stdout stdout stderr))
  else Ok (parsed_stdout, stderr)).

(** What the [except] clause of [_run_conda_package_command] makes of the
    outcome of [_run_conda_command]. *)
Definition package_outcome (name : str) (version : option str)
    (r : result (pyval * str)) : result (pyval * str) :=
  match r with
  | Raise (CondaCommandError _ _ output _ _ as e) =>
      rbind (is_package_not_found output) (fun not_found =>
      if not_found then Raise (CondaPackageNotFoundError name version)
      else Raise e)
  | _ => r
  end.

(** How [_check_package_installed] reads the output of the dry run. *)
Definition classify_dry_run (output : pyval) (stderr : str) : result bool :=
  rbind (py_in (py "message") output) (fun has_message =>
  rbind (if has_message
         then rbind (py_getitem output (py "message")) (fun message =>
              Ok (py_eq_str message already_installed_message))
         else Ok false) (fun message_matches =>
  if message_matches then Ok true
  else
    rbind (py_in (py "actions") output) (fun has_actions =>
    rbind (if has_actions
           then rbind (py_getitem output (py "actions")) (fun actions =>
                rbind (py_len actions) (fun n => Ok (0 <? n)))
           else Ok false) (fun actions_planned =>
    if actions_planned then Ok false
    else Raise (CondaUnexpectedOutputError output stderr))))).

(** ** Lines of stdout *)

Definition is_newline (c : char) : bool := N.eqb c newline.

(** A string that holds no line feed: one line. *)
Definition one_line (s : str) : Prop := Forall (fun c => is_newline c = false) s.

(** A string with its line feeds taken out. *)
Definition remove_newlines (s : str) : str :=
  filter (fun c => negb (is_newline c)) s.

(** A string with a character that is not a space. *)
Definition nonblank (s : str) : Prop := exists c, In c s /\ isspace c = false.

(** Lines, each followed by a line feed. *)
Definition lines_block (ls : list str) : str :=
  concat (map (fun l => l ++ [newline]) ls).

(** Lines with a line feed between them. *)
Fixpoint join_lines (ls : list str) : str :=
  match ls with
  | [] => []
  | [l] => l
  | l :: ls' => l ++ newline :: join_lines ls'
  end.

(** A decoded object that has one of the keys of a progress report. *)
Definition has_marker (d : dict) : bool :=
  dict_has d (py "progress") || dict_has d (py "maxval").

(** A line conda prints while it works: it decodes, alone, to an object
    with a [progress] or a [maxval] key. *)
Definition progress_line (lim : limits) (line : str) : Prop :=
  exists d, loads lim line = Decoded (PyDict d) /\ has_marker d = true.

(** [parse_conda_stdout] from the lines on: the loop, then the attempt on
    what is left. *)
Definition parse_lines (lim : limits) (ls : list str) : result pyval :=
  rbind (skip_progress lim ls) (fun r =>
  match r with
  | inl line_content => Ok line_content
  | inr remaining =>
      match loads lim (join_empty remaining) with
      | Decoded v => Ok v
      | Invalid => Ok PyNone
      | TooDeep => Raise RecursionError
      end
  end).

(** ** The decoder at work *)

(** The lexer is inside a string. *)
Definition in_text (st : lex_state) : Prop :=
  match st with
  | InString _ | InEscape _ => True
  | _ => False
  end.

(** A token of a text the lexer read to its end. *)
Definition good (t : token) : Prop :=
  match t with
  | TBadString | TBadChar => False
  | _ => True
  end.

Definition clean (ts : list token) : Prop := Forall good ts.

(** No word directly after a word. *)
Fixpoint words_apart (ts : list token) : Prop :=
  match ts with
  | TWord _ :: ((TWord _ :: _) as r) => False
  | _ :: r => words_apart r
  | [] => True
  end.

(** ** Worlds, modules and outputs for the examples *)

(** The limits of CPython 3.11 with its defaults, [json.loads] being called
    from the top of a script: 994 containers can be open, an error can be
    built under 991 of them, and an integer literal has 4300 digits at
    most.  Every frame between the top and the call takes one level off the
    first two. *)
Definition cpython : limits :=
  {| error_depth := 991; headroom := 3; max_digits := 4300 |}.

(** An interpreter close to its recursion limit: four containers can be
    open, and an error can be built under one. *)
Definition nearly_exhausted : limits :=
  {| error_depth := 1; headroom := 3; max_digits := 4300 |}.

(** A scripted world: the answers the process gives, in the order of the
    calls; once they are used up it answers exit code 0 and empty output. *)
Definition script : Type := list (Z * str * str).

Definition scripted (w : script) (_ : command) : (Z * str * str) * script :=
  match w with
  | r :: w' => (r, w')
  | [] => ((0%Z, [], []), [])
  end.

(** [conda] is on the path at [/bin/conda], or it is not; no explicit path
    names a file. *)
Definition on_path (_ : str) : option str := Some (py "/bin/conda").
Definition not_on_path (_ : str) : option str := None.
Definition no_file (_ : str) : bool := false.

(** A module asking for [numpy]. *)
Definition numpy (st : desired_state) (v : option str) : AnsibleModule :=
  {| module_params :=
       {| name := py "numpy"; version := v; state := st; channels := None;
          executable := None; extra_args := None |};
     check_mode := false |}.

(** A module asking for [numpy] from channel [conda-forge] with the extra
    argument [--quiet]. *)
Definition numpy_forge_quiet : AnsibleModule :=
  {| module_params :=
       {| name := py "numpy"; version := None; state := Present;
          channels := Some (py "conda-forge"); executable := None;
          extra_args := Some (py "--quiet") |};
     check_mode := false |}.

(** Answers of the process. *)
Definition says_installed : Z * str * str :=
  (0%Z, js "{'message': 'All requested packages already installed.'}", []).
Definition says_actions : Z * str * str :=
  (0%Z, js "{'actions': {'LINK': ['numpy-1.0']}, 'success': true}", []).
Definition says_not_found : Z * str * str :=
  (1%Z, js "{'exception_name': 'PackageNotFoundError', 'message': 'none'}", []).

(** The stdout of the unit tests of [parse_conda_stdout]. *)
Definition valid_stdout : str := js "
        {
          'actions': {}, 
          'success': true
        }
    ".

Definition progress_report_0 : str :=
  js "{'maxval': 17685, 'finished': false, 'fetch': 'translationstr', 'progress': 0}".

Definition progress_report_1 : str :=
  js "{'maxval': 17685, 'finished': true, 'fetch': 'translationstr', 'progress': 17685}".

Definition nul : char := 0%N.

(** ** Vocabulary of the further properties *)

(** A token as [split] makes them: not empty, no space inside. *)
Definition is_word (tok : str) : Prop :=
  tok <> [] /\ Forall (fun c => isspace c = false) tok.

(** A package name without an equals sign. *)
Definition no_equals (s : str) : Prop :=
  Forall (fun c => N.eqb c (ch "=") = false) s.

(** A decoded value that [in] cannot search: not a dict, a list or a string. *)
Definition not_iterable (v : pyval) : Prop :=
  match v with
  | PyDict _ | PyList _ | PyStr _ => False
  | _ => True
  end.

(** The command lines [_install_package] and [_uninstall_package] build. *)
Definition install_command (check : bool) (conda name : str)
    (version : option str) : command :=
  if check
  then [conda; py "install"; py "--yes"; py "--json"; py "--dry-run";
        get_install_target name version]
  else [conda; py "install"; py "--yes"; py "--json";
        get_install_target name version].

Definition remove_command (check : bool) (conda name : str) : command :=
  if check
  then [conda; py "remove"; py "--yes"; py "--json"; py "--dry-run"; name]
  else [conda; py "remove"; py "--yes"; py "--json"; name].

(** What [module.exit_json] reports after an install and after a remove. *)
Definition installed_report (name : str) (version : option str)
    (output : pyval) (stderr : str) : exit_report :=
  ExitJson [(py "changed", PyBool true); (py "name", PyStr name);
            (py "version", opt_str version); (py "output", output);
            (py "error", PyStr stderr)].

Definition removed_report (output : pyval) (stderr : str) : exit_report :=
  ExitJson [(py "changed", PyBool true); (py "output", output);
            (py "error", PyStr stderr)].

(** A module asking for [numpy] in check mode. *)
Definition numpy_check (st : desired_state) : AnsibleModule :=
  {| module_params :=
       {| name := py "numpy"; version := None; state := st; channels := None;
          executable := None; extra_args := None |};
     check_mode := true |}.

Definition says_removed : Z * str * str :=
  (0%Z, js "{'success': true}", py "done").

(** An exception that ends the module through [exit_json] or [fail_json]. *)
Definition is_exit (e : exn) : bool :=
  match e with SystemExit _ => true | _ => false end.

(** The module ended with [exit_json] and [changed=True]. *)
Definition reports_change (r : result unit) : Prop :=
  exists kwargs,
    r = Raise (SystemExit (ExitJson kwargs))
    /\ dict_get kwargs (py "changed") = Some (PyBool true).

(** Every command line of a run is a dry run. *)
Definition all_dry_runs (cmds : list command) : Prop :=
  Forall (fun cmd => In (py "--dry-run") cmd) cmds.

(** * Properties *)

Unset Implicit Arguments.

(** ** Strings *)

Lemma str_eqb_eq (a b : str) : str_eqb a b = true <-> a = b.
Proof.
  revert b. induction a as [|x a IH]; intros [|y b]; simpl;
    try (split; [reflexivity|reflexivity]); try (split; discriminate).
  rewrite andb_true_iff, N.eqb_eq, IH. split.
  - now intros [-> ->].
  - intros [= -> ->]. auto.
Qed.

Lemma str_eqb_refl (a : str) : str_eqb a a = true.
Proof. now apply str_eqb_eq. Qed.

Lemma lstrip_blank (s : str) :
  Forall (fun c => isspace c = true) s -> lstrip s = [].
Proof.
  induction 1 as [|c s Hc _ IH]; simpl; [reflexivity|].
  now rewrite Hc.
Qed.

Lemma strip_blank (s : str) :
  Forall (fun c => isspace c = true) s -> strip s = [].
Proof.
  intros H. unfold strip. now rewrite (lstrip_blank s H).
Qed.

(** ** The decoder and lines

    Three facts about [loads] carry the parser of stdout: spaces around a
    text do not matter, a line feed ends every token, and a text that is a
    value is not the start of a longer one. *)

Section Characters.

(** The code points of [isspace]. *)
Lemma isspace_code_points (c : char) :
  isspace c = true ->
  In c [9; 10; 11; 12; 13; 28; 29; 30; 31; 32; 133; 160; 5760; 8192; 8193;
        8194; 8195; 8196; 8197; 8198; 8199; 8200; 8201; 8202; 8232; 8233;
        8239; 8287; 12288]%N.
Proof.
  unfold isspace.
  rewrite !orb_true_iff, !andb_true_iff, !N.leb_le, !N.eqb_eq. simpl. lia.
Qed.

Ltac by_cases c H :=
  apply isspace_code_points in H; simpl in H;
  repeat (destruct H as [<-|H]; [vm_compute; auto|]); destruct H.

Lemma isspace_class (c : char) :
  isspace c = true -> char_class_of c = CSpace \/ char_class_of c = CBad.
Proof. intros H. by_cases c H. Qed.

Lemma json_space_code_points (c : char) :
  is_json_space c = true -> c = 32%N \/ c = 9%N \/ c = 10%N \/ c = 13%N.
Proof.
  unfold is_json_space. rewrite !orb_true_iff, !N.eqb_eq. tauto.
Qed.

Lemma class_space_json (c : char) :
  char_class_of c = CSpace -> is_json_space c = true.
Proof.
  unfold char_class_of. destruct (is_json_space c); [reflexivity|].
  repeat match goal with
         | |- context [if ?b then _ else _] => destruct b
         end; discriminate.
Qed.

Lemma class_space_isspace (c : char) :
  char_class_of c = CSpace -> isspace c = true.
Proof.
  intros H. apply class_space_json, json_space_code_points in H.
  destruct H as [->|[->|[->| ->]]]; reflexivity.
Qed.

Lemma isspace_in_string (c : char) :
  isspace c = true ->
  N.eqb c dquote = false /\ N.eqb c backslash = false.
Proof. intros H. by_cases c H. Qed.

Lemma newline_is_control (c : char) :
  is_newline c = true ->
  char_class_of c = CSpace /\ N.eqb c dquote = false
  /\ N.eqb c backslash = false /\ is_control c = true.
Proof.
  unfold is_newline. rewrite N.eqb_eq. intros ->. repeat split.
Qed.

End Characters.

(** *** Stripping *)

Lemma nonblank_cons (c : char) (s : str) :
  nonblank (c :: s) <-> isspace c = false \/ nonblank s.
Proof.
  unfold nonblank. split.
  - intros (x & [<-|Hin] & Hx); [now left|right; eauto].
  - intros [Hc|(x & Hin & Hx)]; [exists c|exists x]; simpl; auto.
Qed.

Lemma not_nonblank_nil : ~ nonblank [].
Proof. intros (x & [] & _). Qed.

Lemma blank_or_nonblank (s : str) :
  Forall (fun c => isspace c = true) s \/ nonblank s.
Proof.
  induction s as [|c s [IH|IH]].
  - left. constructor.
  - destruct (isspace c) eqn:E.
    + left. now constructor.
    + right. apply nonblank_cons. now left.
  - right. apply nonblank_cons. now right.
Qed.

Lemma rstrip_blank (s : str) :
  Forall (fun c => isspace c = true) s -> rstrip s = [].
Proof.
  induction 1 as [|c s Hc _ IH]; simpl; [reflexivity|].
  now rewrite IH, Hc.
Qed.

Lemma rstrip_nil_blank (s : str) :
  rstrip s = [] -> Forall (fun c => isspace c = true) s.
Proof.
  induction s as [|c s IH]; simpl; [constructor|].
  destruct (rstrip s) eqn:E; [|discriminate].
  destruct (isspace c) eqn:Ec; [|discriminate].
  intros _. constructor; auto.
Qed.

Lemma rstrip_cons (c : char) (s : str) :
  rstrip s <> [] -> rstrip (c :: s) = c :: rstrip s.
Proof. simpl. destruct (rstrip s); congruence. Qed.

Lemma nonblank_not_blank (s : str) :
  nonblank s -> Forall (fun c => isspace c = true) s -> False.
Proof.
  intros (x & Hin & Hx) H. rewrite Forall_forall in H.
  specialize (H x Hin). congruence.
Qed.

Lemma rstrip_nonblank (s : str) : nonblank s -> rstrip s <> [].
Proof.
  intros H E. apply rstrip_nil_blank in E. exact (nonblank_not_blank s H E).
Qed.

Lemma lstrip_app (p x : str) : nonblank p -> lstrip (p ++ x) = lstrip p ++ x.
Proof.
  induction p as [|c p IH]; intros H.
  - destruct (not_nonblank_nil H).
  - simpl. destruct (isspace c) eqn:E; [|reflexivity].
    apply IH. apply nonblank_cons in H as [H|H]; [congruence|assumption].
Qed.

Lemma rstrip_app (x t : str) : nonblank t -> rstrip (x ++ t) = x ++ rstrip t.
Proof.
  intros H. induction x as [|c x IH]; [reflexivity|].
  change ((c :: x) ++ t) with (c :: (x ++ t)).
  rewrite rstrip_cons; rewrite IH; [reflexivity|].
  intros E. apply app_eq_nil in E as [_ E]. exact (rstrip_nonblank t H E).
Qed.

(** *** The lexer, one character at a time *)

Lemma clean_app (ts1 ts2 : list token) :
  clean (ts1 ++ ts2) <-> clean ts1 /\ clean ts2.
Proof. apply Forall_app. Qed.

Lemma not_clean_bad_string (ts : list token) : ~ clean (TBadString :: ts).
Proof. intros H. now inversion H. Qed.

Lemma not_clean_bad_char (ts : list token) : ~ clean (TBadChar :: ts).
Proof. intros H. now inversion H. Qed.

Lemma clean_cons (t : token) (ts : list token) :
  clean (t :: ts) -> clean ts.
Proof. intros H. now inversion H. Qed.

(** The lexer stops on an error token only. *)
Lemma lex_step_stop (st : lex_state) (c : char) (out : list token) :
  lex_step st c = Stop out -> ~ clean out.
Proof.
  destruct st as [|acc|acc|acc]; cbn [lex_step].
  - destruct (char_class_of c); try discriminate.
    intros [= <-]. apply not_clean_bad_char.
  - destruct (char_class_of c); try discriminate.
    intros [= <-] H. exact (not_clean_bad_char _ (clean_cons _ _ H)).
  - destruct (N.eqb c dquote); [discriminate|].
    destruct (N.eqb c backslash); [discriminate|].
    destruct (is_control c); [|discriminate].
    intros [= <-]. apply not_clean_bad_string.
  - destruct (is_control c); [|discriminate].
    intros [= <-]. apply not_clean_bad_string.
Qed.

Lemma lex_cons (st : lex_state) (c : char) (s : str) :
  clean (lex st (c :: s)) ->
  exists st' out,
    lex_step st c = Go st' out /\ lex st (c :: s) = out ++ lex st' s
    /\ clean out /\ clean (lex st' s).
Proof.
  cbn [lex]. destruct (lex_step st c) as [st' out|out] eqn:E.
  - intros H. apply clean_app in H as [H1 H2]. exists st', out. auto.
  - intros H. destruct (lex_step_stop st c out E H).
Qed.

Lemma lex_end_in_text (st : lex_state) : in_text st -> ~ clean (lex_end st).
Proof.
  destruct st; simpl; try tauto; intros _; apply not_clean_bad_string.
Qed.

(** What a space does to the lexer. *)
Lemma lex_step_space (st st' : lex_state) (c : char) (out : list token) :
  isspace c = true ->
  lex_step st c = Go st' out ->
  (st' = Between /\ out = lex_end st) \/ (in_text st /\ in_text st' /\ out = []).
Proof.
  intros Hc. destruct (isspace_class c Hc) as [Hk|Hk];
    destruct (isspace_in_string c Hc) as [Hq Hb];
    destruct st as [|acc|acc|acc]; cbn [lex_step lex_end in_text];
    rewrite ?Hk, ?Hq, ?Hb;
    try discriminate;
    try (intros [= <- <-]; now left);
    destruct (is_control c); try discriminate;
    intros [= <- <-]; right; simpl; auto.
Qed.

(** Spaces to the end of the text add no token. *)
Lemma lex_blank (s : str) (st : lex_state) :
  Forall (fun c => isspace c = true) s ->
  clean (lex st s) -> lex st s = lex_end st.
Proof.
  intros H. revert st. induction H as [|c s Hc Hs IH]; intros st Hclean.
  - reflexivity.
  - destruct (lex_cons st c s Hclean) as (st' & out & Hstep & -> & Hout & Hrest).
    rewrite (IH st' Hrest).
    destruct (lex_step_space st st' c out Hc Hstep) as [[-> ->]|(_ & Hst' & _)].
    + apply app_nil_r.
    + rewrite (IH st' Hrest) in Hrest. destruct (lex_end_in_text st' Hst' Hrest).
Qed.

Lemma lex_lstrip (s : str) :
  clean (lex Between s) -> lex Between (lstrip s) = lex Between s.
Proof.
  induction s as [|c s IH]; intros Hclean; [reflexivity|].
  simpl lstrip. destruct (isspace c) eqn:Hc; [|reflexivity].
  destruct (lex_cons Between c s Hclean) as (st' & out & Hstep & -> & Hout & Hrest).
  destruct (lex_step_space Between st' c out Hc Hstep) as [[-> ->]|([] & _)].
  simpl. now apply IH.
Qed.

Lemma lex_rstrip (s : str) (st : lex_state) :
  clean (lex st s) -> lex st (rstrip s) = lex st s.
Proof.
  revert st. induction s as [|c s IH]; intros st Hclean; [reflexivity|].
  destruct (lex_cons st c s Hclean) as (st' & out & Hstep & E & Hout & Hrest).
  rewrite E. destruct (rstrip s) as [|c' r] eqn:Er.
  - pose proof (rstrip_nil_blank s Er) as Hs.
    rewrite (lex_blank s st' Hs Hrest).
    simpl rstrip. rewrite Er. destruct (isspace c) eqn:Hc.
    + destruct (lex_step_space st st' c out Hc Hstep) as [[-> ->]|(_ & Hst' & _)].
      * simpl. now rewrite app_nil_r.
      * rewrite (lex_blank s st' Hs Hrest) in Hrest.
        destruct (lex_end_in_text st' Hst' Hrest).
    + cbn [lex]. now rewrite Hstep.
  - rewrite rstrip_cons by (rewrite Er; discriminate).
    cbn [lex]. rewrite Hstep, Er. now rewrite (IH st' Hrest).
Qed.

(** A word the lexer is reading is its next token. *)
Lemma lex_word_head (s : str) (acc : str) :
  exists w r, lex (InWord acc) s = TWord w :: r.
Proof.
  revert acc. induction s as [|c s IH]; intros acc.
  - simpl. eauto.
  - cbn [lex lex_step]. destruct (char_class_of c); simpl; eauto.
Qed.

(** A string the lexer is reading gives a token. *)
Lemma lex_in_text (s : str) (st : lex_state) : in_text st -> lex st s <> [].
Proof.
  revert st. induction s as [|c s IH]; intros st Hst.
  - destruct st; simpl in *; try tauto; discriminate.
  - destruct st as [|acc|acc|acc]; simpl in Hst; try tauto; cbn [lex lex_step].
    + destruct (N.eqb c dquote); [discriminate|].
      destruct (N.eqb c backslash); [apply (IH (InEscape _) I)|].
      destruct (is_control c); [discriminate|apply (IH (InString _) I)].
    + destruct (is_control c); [discriminate|apply (IH (InString _) I)].
Qed.

(** A text without a token is made of spaces. *)
Lemma lex_no_token (s : str) :
  lex Between s = [] -> Forall (fun c => isspace c = true) s.
Proof.
  induction s as [|c s IH]; intros E; [constructor|].
  cbn [lex lex_step] in E. destruct (char_class_of c) eqn:Hk; try discriminate.
  - constructor; [now apply class_space_isspace|now apply IH].
  - destruct (lex_in_text s (InString []) I E).
  - destruct (lex_word_head s [c]) as (w & r & Hw). simpl in E.
    rewrite Hw in E. discriminate.
Qed.

(** A line feed ends every token: the tokens of a text with a line feed in
    it are the tokens before it and the tokens after it. *)
Lemma lex_line_break (l r : str) (c : char) (st : lex_state) :
  is_newline c = true ->
  clean (lex st (l ++ c :: r)) ->
  lex st (l ++ c :: r) = lex st l ++ lex Between r.
Proof.
  intros Hc. revert st. induction l as [|a l IH]; intros st Hclean.
  - simpl app in *.
    destruct (lex_cons st c r Hclean) as (st' & out & Hstep & -> & _ & _).
    destruct (newline_is_control c Hc) as (Hk & Hq & Hb & Hctl).
    destruct st as [|acc|acc|acc]; cbn [lex_step] in Hstep;
      rewrite ?Hk, ?Hq, ?Hb, ?Hctl in Hstep; try discriminate;
      injection Hstep as <- <-; reflexivity.
  - change ((a :: l) ++ c :: r) with (a :: (l ++ c :: r)) in *.
    destruct (lex_cons st a _ Hclean) as (st' & out & Hstep & -> & _ & Hrest).
    cbn [lex]. rewrite Hstep, (IH st' Hrest). apply app_assoc.
Qed.

(** *** The parser, one token at a time *)

Lemma error_here_next (lim : limits) (stack : list frame) (st : parse_state) :
  error_here lim stack <> Next st.
Proof. unfold error_here. destruct (_ <=? _); discriminate. Qed.

Lemma whole_word_next (lim : limits) (stack : list frame) (v : pyval)
    (rest : str) (st : parse_state) :
  whole_word lim stack v rest = Next st -> st = (stack, HaveValue v).
Proof.
  destruct rest; simpl; [now intros [= <-]|].
  intros H. destruct (error_here_next _ _ _ H).
Qed.

(** The parser goes on after a token the lexer read to its end only. *)
Lemma parse_step_good (lim : limits) (st st' : parse_state) (t : token) :
  parse_step lim st t = Next st' -> good t.
Proof.
  destruct t; try exact (fun _ => I);
    destruct st as [stack ph]; destruct ph; cbn [parse_step begin_value begin_key];
    try discriminate;
    try (intros H; destruct (error_here_next _ _ _ H));
    destruct stack as [|[] stack]; cbn [begin_value begin_key];
    try discriminate;
    intros H; destruct (error_here_next _ _ _ H).
Qed.

Lemma parse_clean (lim : limits) (ts : list token) (st : parse_state)
    (v : pyval) :
  parse lim st ts = Decoded v -> clean ts.
Proof.
  revert st. induction ts as [|t ts IH]; intros st E; [constructor|].
  cbn [parse] in E.
  destruct (parse_step lim st t) as [st'| |] eqn:Hstep; try discriminate.
  constructor; [exact (parse_step_good _ _ _ _ Hstep)|exact (IH _ E)].
Qed.

Lemma parse_step_word (lim : limits) (st st' : parse_state) (w : str) :
  parse_step lim st (TWord w) = Next st' ->
  exists stack v, st' = (stack, HaveValue v).
Proof.
  assert (Hv : forall stack, begin_value lim stack (TWord w) = Next st' ->
                             exists stack v, st' = (stack, HaveValue v)).
  { intros stack. cbn [begin_value].
    destruct (scan_word lim w) as [v rest|v rest| |]; try discriminate.
    - intros H. apply whole_word_next in H. eauto.
    - destruct (_ <? _); [|discriminate].
      intros H. apply whole_word_next in H. eauto. }
  destruct st as [stack ph].
  destruct ph; cbn [parse_step begin_key];
    try (destruct stack as [|[] stack]; cbn [begin_key]);
    first [apply Hv | intros H; destruct (error_here_next _ _ _ H)].
Qed.

Lemma parse_step_after_value (lim : limits) (stack : list frame) (v : pyval)
    (t : token) (st' : parse_state) :
  parse_step lim (stack, HaveValue v) t = Next st' ->
  t = TComma \/ t = TRBracket \/ t = TRBrace.
Proof.
  cbn [parse_step].
  destruct stack as [|[] stack]; destruct t; auto;
    intros H; destruct (error_here_next _ _ _ H).
Qed.

(** A text that is a value has no word directly after a word. *)
Lemma parse_words_apart (lim : limits) (ts : list token) (st : parse_state)
    (v : pyval) :
  parse lim st ts = Decoded v -> words_apart ts.
Proof.
  revert st. induction ts as [|t ts IH]; intros st E; [exact I|].
  cbn [parse] in E.
  destruct (parse_step lim st t) as [st'| |] eqn:Hstep; try discriminate.
  pose proof (IH _ E) as Hts.
  destruct t; try exact Hts.
  destruct ts as [|t' ts]; [exact I|].
  destruct t'; try exact Hts.
  apply parse_step_word in Hstep as (stack & v0 & ->).
  cbn [parse] in E.
  destruct (parse_step lim (stack, HaveValue v0) (TWord w0)) as [st''| |] eqn:H2;
    try discriminate.
  apply parse_step_after_value in H2 as [H2|[H2|H2]]; discriminate.
Qed.

(** A text that is a value is not the start of a longer one: what follows
    the value is refused. *)
Lemma parse_extra (lim : limits) (ts1 ts2 : list token) (st : parse_state)
    (v : pyval) :
  parse lim st ts1 = Decoded v -> ts2 <> [] ->
  parse lim st (ts1 ++ ts2) = Invalid.
Proof.
  intros E Hne. revert st E. induction ts1 as [|t ts1 IH]; intros st E.
  - destruct ts2 as [|t ts2]; [congruence|].
    destruct st as [[|f stack] ph]; cbn [parse parse_end] in E;
      destruct ph; try discriminate;
      try (destruct (_ <=? _); discriminate).
    reflexivity.
  - cbn [parse app] in *.
    destruct (parse_step lim st t) as [st'| |]; try discriminate.
    now apply IH.
Qed.

Lemma words_apart_app (ts1 ts2 : list token) :
  words_apart (ts1 ++ ts2) -> words_apart ts2.
Proof.
  induction ts1 as [|t ts1 IH]; [auto|].
  intros H. apply IH. simpl app in H.
  destruct t; try exact H.
  destruct (ts1 ++ ts2) as [|t' r]; [exact I|].
  destruct t'; try exact H. destruct H.
Qed.

(** *** Taking the line feeds out *)

Lemma remove_newlines_cons (c : char) (s : str) :
  remove_newlines (c :: s)
  = if is_newline c then remove_newlines s else c :: remove_newlines s.
Proof. unfold remove_newlines. simpl. now destruct (is_newline c). Qed.

(** Line feeds stand between tokens or stop the lexer, and the one thing a
    line feed between two tokens can keep apart is two words.  So where no
    word follows a word, the text without its line feeds has the same
    tokens.  The second part is the case of a word whose end was a line
    feed that is gone: the lexer is still in the word when it reads on. *)
Lemma lex_remove_newlines_aux (s : str) :
  (forall st,
     clean (lex st s) -> words_apart (lex st s) ->
     lex st (remove_newlines s) = lex st s)
  /\ (forall acc,
        clean (lex Between s) -> words_apart (TWord (rev acc) :: lex Between s) ->
        lex (InWord acc) (remove_newlines s) = TWord (rev acc) :: lex Between s).
Proof.
  induction s as [|c s [IH1 IH2]].
  - split; reflexivity.
  - rewrite remove_newlines_cons. destruct (is_newline c) eqn:Hc.
    + destruct (newline_is_control c Hc) as (Hk & Hq & Hb & Hctl). split.
      * intros st Hclean Hw.
        destruct (lex_cons st c s Hclean) as (st' & out & Hstep & E & _ & Hrest).
        rewrite E in *.
        destruct st as [|acc|acc|acc]; cbn [lex_step] in Hstep;
          rewrite ?Hk, ?Hq, ?Hb, ?Hctl in Hstep; try discriminate;
          injection Hstep as <- <-.
        -- now apply IH1.
        -- now apply IH2.
      * intros acc Hclean Hw.
        destruct (lex_cons Between c s Hclean) as (st' & out & Hstep & E & _ & Hrest).
        rewrite E in *.
        cbn [lex_step] in Hstep. rewrite Hk in Hstep. injection Hstep as <- <-.
        now apply IH2.
    + split.
      * intros st Hclean Hw.
        destruct (lex_cons st c s Hclean) as (st' & out & Hstep & E & _ & Hrest).
        rewrite E in *. cbn [lex]. rewrite Hstep. f_equal.
        apply IH1; [assumption|]. exact (words_apart_app out _ Hw).
      * intros acc Hclean Hw.
        destruct (lex_cons Between c s Hclean) as (st' & out & Hstep & E & _ & Hrest).
        rewrite E in *. cbn [lex_step] in Hstep. cbn [lex lex_step].
        destruct (char_class_of c) eqn:Hk; try discriminate;
          injection Hstep as <- <-.
        -- simpl. f_equal. apply IH1; [assumption|].
           exact (words_apart_app [TWord (rev acc)] _ Hw).
        -- simpl. do 2 f_equal. apply IH1; [assumption|].
           exact (words_apart_app [TWord (rev acc); p] _ Hw).
        -- simpl. f_equal. apply IH1; [assumption|].
           exact (words_apart_app [TWord (rev acc)] _ Hw).
        -- destruct (lex_word_head s [c]) as (w & r & Hr). simpl in Hw.
           rewrite Hr in Hw. destruct Hw.
Qed.

Lemma lex_remove_newlines (s : str) :
  clean (lex Between s) -> words_apart (lex Between s) ->
  lex Between (remove_newlines s) = lex Between s.
Proof. apply lex_remove_newlines_aux. Qed.

(** *** The decoder on some texts *)

Example loads_object :
  loads cpython (js "{'a': 1, 'b': [true, null, -2.5e3, 'x\n'], 'a': {}}")
  = Decoded (PyDict [(py "a", PyDict []);
                     (py "b", PyList [PyBool true; PyNone;
                                      PyFloat (py "-2.5e3");
                                      PyStr (py "x" ++ [newline])])]).
Proof. reflexivity. Qed.

Example loads_blanks_between_tokens :
  loads cpython (py " [1 ,2" ++ [newline] ++ py ", -30 ] ")
  = Decoded (PyList [PyInt 1; PyInt 2; PyInt (-30)]).
Proof. reflexivity. Qed.

(** A pair of surrogates is one character, U+1F600; a string may hold the
    no-break space, which is a space for [strip] and none for JSON. *)
Example loads_surrogate_pair :
  loads cpython (js "'\ud83d\ude00 \u00e9'")
  = Decoded (PyStr [128512; 32; 233]%N)
  /\ loads cpython ([dquote; 160; dquote]%N) = Decoded (PyStr [160%N])
  /\ loads cpython ([160] ++ py "1")%N = Invalid.
Proof. repeat split. Qed.

Example loads_rejects :
  map (loads cpython)
    [py "fail"; js "[1,]"; js "{'a':1,}"; js "{'a' 1}"; py "01";
     py "1 2"; py "1.e3"; py "+1"; py "-"; js "'a"; js "{'a':1}{";
     py "tru" ++ [newline] ++ py "e"; js "'a" ++ [newline] ++ js "b'";
     nul :: js "{'a': 1}"; []]
  = repeat Invalid 15.
Proof. reflexivity. Qed.

(** Close to the recursion limit: four containers can be open; an error
    under more than one of them, and a fifth container, come out as
    [RecursionError], while a value that is missing is still reported. *)
Example loads_near_the_limit :
  map (loads nearly_exhausted)
    [py "[[[[1]]]]"; py "[[[[[1]]]]]"; py "[[1"; py "[1"; py "[[[[";
     py "[[[[NaN]]]]"; py "[[[NaN]]]"]
  = [Decoded (PyList [PyList [PyList [PyList [PyInt 1]]]]); TooDeep; TooDeep;
     Invalid; Invalid; TooDeep;
     Decoded (PyList [PyList [PyList [PyFloat (py "NaN")]]])].
Proof. reflexivity. Qed.

(** At the limits of [cpython]: 994 containers open and a 995th does not;
    a missing delimiter under 991 containers is a [ValueError] and under
    992 a [RecursionError]; an integer of 4300 digits decodes and one of
    4301 does not. *)
Example loads_at_the_limits :
  let nested n := repeat (ch "[") n ++ repeat (ch "]") n in
  let cut n := repeat (ch "[") n ++ py "1" in
  let digits n := repeat (ch "7") n in
  map (fun s => match loads cpython s with
                | Decoded _ => 0
                | Invalid => 1
                | TooDeep => 2
                end)
    [nested 994; nested 995; cut 991; cut 992; digits 4300; digits 4301]
  = [0; 2; 1; 2; 0; 1].
Proof. vm_compute. reflexivity. Qed.

(** *** What [loads] does not see *)

Lemma loads_clean (lim : limits) (s : str) (v : pyval) :
  loads lim s = Decoded v -> clean (lex Between s).
Proof. apply parse_clean. Qed.

Lemma loads_lstrip (lim : limits) (s : str) (v : pyval) :
  loads lim s = Decoded v -> loads lim (lstrip s) = Decoded v.
Proof.
  intros H. unfold loads. rewrite lex_lstrip; [exact H|].
  exact (loads_clean lim s v H).
Qed.

Lemma loads_rstrip (lim : limits) (s : str) (v : pyval) :
  loads lim s = Decoded v -> loads lim (rstrip s) = Decoded v.
Proof.
  intros H. unfold loads. rewrite lex_rstrip; [exact H|].
  exact (loads_clean lim s v H).
Qed.

Lemma loads_strip (lim : limits) (s : str) (v : pyval) :
  loads lim s = Decoded v -> loads lim (strip s) = Decoded v.
Proof. intros H. unfold strip. now apply loads_rstrip, loads_lstrip. Qed.

(** A blank text does not decode: [json.loads] raises [ValueError]. *)
Lemma loads_blank (lim : limits) (s : str) :
  Forall (fun c => isspace c = true) s -> loads lim s = Invalid.
Proof.
  intros Hb.
  assert (H : lex Between s = [] \/ lex Between s = [TBadChar]).
  { induction Hb as [|c s Hc _ IH]; [now left|].
    cbn [lex lex_step].
    destruct (isspace_class c Hc) as [->| ->]; [exact IH|now right]. }
  unfold loads. destruct H as [->| ->]; reflexivity.
Qed.

(** A text that decodes is not blank. *)
Lemma loads_nonblank (lim : limits) (s : str) (v : pyval) :
  loads lim s = Decoded v -> nonblank s.
Proof.
  intros H. destruct (blank_or_nonblank s) as [Hb|]; [|assumption].
  rewrite (loads_blank lim s Hb) in H. discriminate.
Qed.

(** A text that decodes still decodes, to the same value, with its line
    feeds taken out. *)
Lemma loads_remove_newlines (lim : limits) (s : str) (v : pyval) :
  loads lim s = Decoded v -> loads lim (remove_newlines s) = Decoded v.
Proof.
  intros H. unfold loads. rewrite lex_remove_newlines; [exact H| |].
  - exact (loads_clean lim s v H).
  - exact (parse_words_apart lim _ _ v H).
Qed.

(** The first line of a text that decodes and goes on after that line does
    not decode alone. *)
Lemma loads_first_line (lim : limits) (l r : str) (c : char) (v v' : pyval) :
  is_newline c = true -> nonblank r ->
  loads lim (l ++ c :: r) = Decoded v -> loads lim l <> Decoded v'.
Proof.
  intros Hc Hr H H'. pose proof (loads_clean lim _ v H) as Hclean.
  unfold loads, parse_tokens in H.
  rewrite (lex_line_break l r c Between Hc Hclean) in H.
  rewrite (parse_extra lim _ (lex Between r) _ v' H') in H; [discriminate|].
  intros E. apply lex_no_token in E. exact (nonblank_not_blank r Hr E).
Qed.

(** ** Lines *)

Lemma is_newline_eq (c : char) : is_newline c = true <-> c = newline.
Proof. apply N.eqb_eq. Qed.

Lemma split_lines_one_line (s : str) : one_line s -> split_lines s = [s].
Proof.
  induction 1 as [|c s Hc _ IH]; [reflexivity|].
  simpl. unfold is_newline in Hc. now rewrite Hc, IH.
Qed.

Lemma split_lines_app (l r : str) :
  one_line l -> split_lines (l ++ newline :: r) = l :: split_lines r.
Proof.
  induction 1 as [|c l Hc _ IH]; [reflexivity|].
  simpl. unfold is_newline in Hc. now rewrite Hc, IH.
Qed.

Lemma split_lines_block (ls : list str) (u : str) :
  Forall one_line ls ->
  split_lines (lines_block ls ++ u) = ls ++ split_lines u.
Proof.
  induction 1 as [|l ls Hl _ IH]; [reflexivity|].
  unfold lines_block in *. simpl. rewrite <- !app_assoc. simpl.
  now rewrite split_lines_app, IH.
Qed.

(** Joining the lines of a text takes its line feeds out. *)
Lemma join_split_lines (s : str) :
  join_empty (split_lines s) = remove_newlines s.
Proof.
  unfold join_empty. induction s as [|c s IH]; [reflexivity|].
  rewrite remove_newlines_cons. simpl. unfold is_newline.
  destruct (N.eqb c newline); [exact IH|].
  destruct (split_lines s) as [|l ls]; simpl in *; now rewrite <- IH.
Qed.

(** A text is one line, or a first line, a line feed and the rest. *)
Lemma first_line (s : str) :
  one_line s \/ exists l r, s = l ++ newline :: r /\ one_line l.
Proof.
  induction s as [|c s IH]; [left; constructor|].
  destruct (is_newline c) eqn:Hc.
  - right. exists [], s. apply is_newline_eq in Hc. subst c.
    split; [reflexivity|constructor].
  - destruct IH as [IH|(l & r & -> & Hl)].
    + left. now constructor.
    + right. exists (c :: l), r. split; [reflexivity|now constructor].
Qed.

Lemma one_line_lstrip (s : str) : one_line s -> one_line (lstrip s).
Proof.
  induction 1 as [|c s Hc Hs IH]; [constructor|].
  simpl. destruct (isspace c); [assumption|now constructor].
Qed.

Lemma one_line_app (a b : str) : one_line (a ++ b) <-> one_line a /\ one_line b.
Proof. apply Forall_app. Qed.

(** A stripped text does not end with a space. *)
Lemma rstrip_last (s x : str) (c : char) :
  rstrip s = x ++ [c] -> isspace c = false.
Proof.
  revert x. induction s as [|a s IH]; intros x E.
  - destruct x; discriminate.
  - simpl in E. destruct (rstrip s) as [|b r] eqn:Er.
    + destruct (isspace a) eqn:Ha; [destruct x; discriminate|].
      destruct x as [|a' x]; [now injection E as <-|].
      destruct x; discriminate.
    + destruct x as [|a' x]; [discriminate|].
      injection E as _ E. exact (IH x E).
Qed.

(** After a line feed inside a stripped text comes something that is not
    blank. *)
Lemma rstrip_after_newline (s l r : str) :
  rstrip s = l ++ newline :: r -> nonblank r.
Proof.
  intros E. destruct (exists_last (l := newline :: r)) as (x & c & Hx);
    [discriminate|].
  rewrite Hx, app_assoc in E. apply rstrip_last in E.
  destruct x as [|a x]; simpl in Hx.
  - injection Hx as <- _. discriminate.
  - injection Hx as _ ->. exists c. split; [|assumption].
    apply in_or_app. right. now left.
Qed.

Lemma rstrip_app_blank (x b : str) :
  Forall (fun c => isspace c = true) b -> rstrip (x ++ b) = rstrip x.
Proof.
  intros Hb. induction x as [|c x IH]; simpl.
  - now apply rstrip_blank.
  - now rewrite IH.
Qed.

Lemma one_line_rstrip (s : str) : one_line s -> one_line (rstrip s).
Proof.
  induction 1 as [|c s Hc Hs IH]; [constructor|].
  simpl. destruct (rstrip s).
  - destruct (isspace c); repeat constructor; assumption.
  - now constructor.
Qed.

Lemma lstrip_suffix (s : str) : exists w, s = w ++ lstrip s.
Proof.
  induction s as [|c s [w IH]]; [now exists []|].
  simpl. destruct (isspace c).
  - exists (c :: w). simpl. now rewrite <- IH.
  - now exists [].
Qed.

Lemma lstrip_nonblank (s : str) : nonblank s -> nonblank (lstrip s).
Proof.
  induction s as [|c s IH]; [auto|].
  intros H. simpl. destruct (isspace c) eqn:Hc; [|assumption].
  apply IH. apply nonblank_cons in H as [H|H]; [congruence|assumption].
Qed.

(** If the text stripped on the right is one line, so is the text stripped
    on both sides. *)
Lemma one_line_strip (s : str) : one_line (rstrip s) -> one_line (strip s).
Proof.
  intros H. unfold strip.
  destruct (blank_or_nonblank s) as [Hb|Hn].
  - rewrite (lstrip_blank s Hb). constructor.
  - destruct (lstrip_suffix s) as [w Hw]. rewrite Hw in H.
    rewrite rstrip_app in H by now apply lstrip_nonblank.
    now apply one_line_app in H.
Qed.

(** ** The output parser *)

Lemma parse_conda_stdout_lines (lim : limits) (stdout : str) :
  parse_conda_stdout lim stdout = parse_lines lim (split_lines (strip stdout)).
Proof. reflexivity. Qed.

Lemma progress_line_nonblank (lim : limits) (p : str) :
  progress_line lim p -> nonblank p.
Proof. intros (d & H & _). exact (loads_nonblank lim p _ H). Qed.

Lemma progress_line_lstrip (lim : limits) (p : str) :
  progress_line lim p -> progress_line lim (lstrip p).
Proof. intros (d & H & Hm). exists d. split; [now apply loads_lstrip|assumption]. Qed.

Lemma progress_line_rstrip (lim : limits) (p : str) :
  progress_line lim p -> progress_line lim (rstrip p).
Proof. intros (d & H & Hm). exists d. split; [now apply loads_rstrip|assumption]. Qed.

(** The loop drops a progress report and goes on. *)
Lemma skip_progress_line (lim : limits) (p : str) (rest : list str) :
  progress_line lim p -> skip_progress lim (p :: rest) = skip_progress lim rest.
Proof.
  intros (d & H & Hm). cbn [skip_progress]. rewrite H.
  unfold py_in, rbind. unfold has_marker in Hm.
  destruct (dict_has d (py "progress")); [reflexivity|].
  simpl in Hm. now rewrite Hm.
Qed.

Lemma parse_lines_progress (lim : limits) (ps rest : list str) :
  Forall (progress_line lim) ps ->
  parse_lines lim (ps ++ rest) = parse_lines lim rest.
Proof.
  induction 1 as [|p ps Hp _ IH]; [reflexivity|].
  unfold parse_lines in *. simpl app. now rewrite skip_progress_line.
Qed.

(** The lines of the result: one line without a marker is returned by the
    loop; of several lines the first does not decode, and the lines joined
    decode to the result.  That first line is a text cut short, and when it
    is cut under more containers than the decoder can report an error from,
    [RecursionError] leaves the parser. *)
Lemma parse_lines_tail (lim : limits) (s : str) (d : dict) :
  loads lim (rstrip s) = Decoded (PyDict d) ->
  (one_line (rstrip s) -> has_marker d = false) ->
  parse_lines lim (split_lines (rstrip s)) = Ok (PyDict d)
  \/ (parse_lines lim (split_lines (rstrip s)) = Raise RecursionError
      /\ exists l r, rstrip s = l ++ newline :: r /\ loads lim l = TooDeep).
Proof.
  intros Hl Hm. destruct (first_line (rstrip s)) as [H1|(l & r & E & H1)].
  - left. rewrite (split_lines_one_line _ H1). unfold parse_lines.
    cbn [skip_progress]. rewrite Hl. unfold py_in, rbind.
    specialize (Hm H1). unfold has_marker in Hm.
    apply orb_false_iff in Hm as [-> ->]. reflexivity.
  - pose proof (loads_remove_newlines _ _ _ Hl) as Hj.
    rewrite <- join_split_lines in Hj.
    pose proof (rstrip_after_newline s l r E) as Hr.
    rewrite E in *. rewrite (split_lines_app l r H1) in *.
    unfold parse_lines. cbn [skip_progress].
    destruct (loads lim l) as [v'| |] eqn:Hfirst.
    + destruct (loads_first_line lim l r newline _ v' eq_refl Hr Hl Hfirst).
    + left. cbn [rbind]. now rewrite Hj.
    + right. split; [reflexivity|]. now exists l, r.
Qed.

(** A line feed is not inside one line. *)
Lemma one_line_no_newline (l r : str) : ~ one_line (l ++ newline :: r).
Proof.
  intros H. apply Forall_app in H as [_ H]. inversion H as [|? ? Hc _].
  discriminate.
Qed.

(** The spaces [lstrip] takes off. *)
Lemma lstrip_split (s : str) :
  exists w, s = w ++ lstrip s /\ Forall (fun c => isspace c = true) w.
Proof.
  induction s as [|c s (w & IH & Hw)]; [now exists []|].
  simpl. destruct (isspace c) eqn:Hc.
  - exists (c :: w). simpl. rewrite <- IH. split; [reflexivity|now constructor].
  - now exists [].
Qed.

(** Before the first line feed of spaces and one line are spaces. *)
Lemma blank_first_line (w x l r : str) :
  Forall (fun c => isspace c = true) w -> one_line x ->
  w ++ x = l ++ newline :: r -> Forall (fun c => isspace c = true) l.
Proof.
  intros Hw Hx. revert w Hw. induction l as [|a l IH]; intros w Hw E;
    [constructor|].
  destruct Hw as [|c w Hc Hw]; simpl in E.
  - subst x. destruct (one_line_no_newline (a :: l) r Hx).
  - injection E as <- E. constructor; [assumption|exact (IH w Hw E)].
Qed.

Lemma lines_block_cons (l : str) (ls : list str) (u : str) :
  lines_block (l :: ls) ++ u = l ++ newline :: (lines_block ls ++ u).
Proof. unfold lines_block. simpl. now rewrite <- !app_assoc. Qed.

(** After progress reports, stripping stdout strips what follows them on
    the right, and the parser goes on from there. *)
Lemma parse_block (lim : limits) (p : str) (ps : list str) (u : str) :
  Forall one_line (p :: ps) -> Forall (progress_line lim) (p :: ps) ->
  nonblank u ->
  parse_conda_stdout lim (lines_block (p :: ps) ++ u)
  = parse_lines lim (split_lines (rstrip u)).
Proof.
  intros Hone Hprog Hu. rewrite parse_conda_stdout_lines. unfold strip.
  inversion Hone as [|? ? Hp1 Hps1]; subst.
  inversion Hprog as [|? ? Hp2 Hps2]; subst.
  rewrite lines_block_cons, lstrip_app by now apply (progress_line_nonblank lim).
  rewrite <- lines_block_cons, rstrip_app by assumption.
  rewrite split_lines_block
    by (constructor; [now apply one_line_lstrip|assumption]).
  apply parse_lines_progress.
  constructor; [now apply progress_line_lstrip|assumption].
Qed.

(** The unit tests of the repository.  In the third, each line feed after a
    progress report is followed by a NUL character: the second line then does
    not decode, and neither does the rest joined, so the parser returns
    [None] where the test expects the object of the second test. *)
Example test_parses_invalid_stdout :
  parse_conda_stdout cpython (py "fail") = Ok PyNone.
Proof. reflexivity. Qed.

Example test_parses_valid_stdout :
  loads cpython valid_stdout
  = Decoded (PyDict [(py "actions", PyDict []); (py "success", PyBool true)])
  /\ parse_conda_stdout cpython valid_stdout
     = Ok (PyDict [(py "actions", PyDict []); (py "success", PyBool true)]).
Proof. split; reflexivity. Qed.

Example test_parses_valid_stdout_with_progress_reports :
  parse_conda_stdout cpython
    (progress_report_0 ++ [newline; nul] ++ progress_report_1
     ++ [newline; nul] ++ valid_stdout)
  = Ok PyNone.
Proof. reflexivity. Qed.

(** After the progress reports the parser returns the object that follows
    them, or it is stopped by [RecursionError]; that can only happen to an
    object on several lines, when [json.loads] is given its first line. *)
Lemma parse_trailing_object_or_recursion_error (lim : limits) (ps : list str)
    (t : str) (d : dict) :
  Forall one_line ps ->
  Forall (progress_line lim) ps ->
  loads lim t = Decoded (PyDict d) ->
  (one_line (strip t) -> has_marker d = false) ->
  parse_conda_stdout lim (lines_block ps ++ t) = Ok (PyDict d)
  \/ (parse_conda_stdout lim (lines_block ps ++ t) = Raise RecursionError
      /\ ~ one_line (strip t)).
Proof.
  intros Hone Hprog Hl Hm. destruct ps as [|p ps].
  - simpl app. rewrite parse_conda_stdout_lines. unfold strip in *.
    destruct (parse_lines_tail lim (lstrip t) d) as [H|(H & l & r & E & _)];
      [now apply loads_rstrip, loads_lstrip|assumption|now left|].
    right. split; [exact H|]. rewrite E. apply one_line_no_newline.
  - rewrite parse_block; try assumption; [|exact (loads_nonblank lim t _ Hl)].
    destruct (parse_lines_tail lim t d) as [H|(H & l & r & E & Hdeep)];
      [now apply loads_rstrip| |now left|].
    + intros H. apply Hm. now apply one_line_strip.
    + right. split; [exact H|]. intros H1.
      destruct (lstrip_split t) as (w & Hw & Hblank).
      rewrite Hw in E.
      rewrite rstrip_app in E
        by exact (lstrip_nonblank t (loads_nonblank lim t _ Hl)).
      pose proof (blank_first_line w _ l r Hblank H1 E) as Hb.
      rewrite (loads_blank lim l Hb) in Hdeep. discriminate.
Qed.

(** C1, for a result the loop cannot take for a progress report. For every
    stdout made of N >= 0 lines that each decode, alone, to an object with
    a [progress] or a [maxval] key, followed by a text that decodes to an
    object, on one line or on several, [parse_conda_stdout] returns that
    object, whatever N is, provided the object has neither key when its text
    is a single line, and provided [json.loads] does not run into the
    recursion limit of the interpreter while the parser works: the parser
    does not catch [RecursionError]. *)
Theorem parse_returns_trailing_object (lim : limits) (ps : list str) (t : str)
    (d : dict) :
  Forall one_line ps ->
  Forall (progress_line lim) ps ->
  loads lim t = Decoded (PyDict d) ->
  (one_line (strip t) -> has_marker d = false) ->
  parse_conda_stdout lim (lines_block ps ++ t) <> Raise RecursionError ->
  parse_conda_stdout lim (lines_block ps ++ t) = Ok (PyDict d).
Proof.
  intros Hone Hprog Hl Hm Hdeep.
  destruct (parse_trailing_object_or_recursion_error lim ps t d
              Hone Hprog Hl Hm) as [H|[H _]]; [exact H|contradiction].
Qed.

Lemma parse_returns_trailing_object_witness :
  parse_conda_stdout cpython
    (lines_block [progress_report_0; progress_report_1] ++ valid_stdout)
  = Ok (PyDict [(py "actions", PyDict []); (py "success", PyBool true)]).
Proof.
  apply parse_returns_trailing_object.
  - repeat constructor.
  - repeat constructor; eexists; (split; [vm_compute; reflexivity|reflexivity]).
  - vm_compute. reflexivity.
  - intros _. reflexivity.
  - vm_compute. discriminate.
Defined.

(** C1, as the claim states it, fails when the result is one line and has a
    marker key itself: the loop takes it for a progress report, nothing is
    left to decode and the parser returns [None].  It also fails for a
    result on several lines whose first line is cut under more containers
    than the decoder can report an error from: decoding that line raises
    [RecursionError], which the parser does not catch. *)
Lemma parse_drops_marked_result_counterexample :
  let t := js "{'success': true, 'progress': 100}" in
  let d := [(py "success", PyBool true); (py "progress", PyInt 100)] in
  let deep := js "{'a': [[1" ++ [newline] ++ js "]]}" in
  loads cpython t = Decoded (PyDict d)
  /\ parse_conda_stdout cpython (lines_block [] ++ t) = Ok PyNone
  /\ parse_conda_stdout cpython (lines_block [js "{'progress': 1}"] ++ t)
     = Ok PyNone
  /\ parse_conda_stdout cpython (lines_block [] ++ t) <> Ok (PyDict d)
  /\ loads nearly_exhausted deep
     = Decoded (PyDict [(py "a", PyList [PyList [PyInt 1]])])
  /\ parse_conda_stdout nearly_exhausted (lines_block [] ++ deep)
     = Raise RecursionError.
Proof. repeat split; vm_compute; try reflexivity; discriminate. Qed.

Lemma join_lines_last (ps : list str) (p : str) :
  join_lines (ps ++ [p]) = lines_block ps ++ p.
Proof.
  induction ps as [|q ps IH]; [reflexivity|].
  rewrite lines_block_cons, <- IH. simpl.
  destruct (ps ++ [p]) eqn:E; [destruct ps; discriminate|reflexivity].
Qed.

Lemma lines_block_last (ps : list str) (p : str) :
  lines_block (ps ++ [p]) = lines_block ps ++ (p ++ [newline]).
Proof.
  unfold lines_block. rewrite map_app, concat_app. simpl.
  now rewrite app_nil_r.
Qed.

(** Progress reports and then one more, with or without its line feed. *)
Lemma parse_progress_only (lim : limits) (ps : list str) (p u : str) :
  Forall one_line ps -> Forall (progress_line lim) ps ->
  one_line p -> progress_line lim p ->
  u = p \/ u = p ++ [newline] ->
  parse_conda_stdout lim (lines_block ps ++ u) = Ok PyNone.
Proof.
  intros Hone Hprog Hp1 Hp2 Hu.
  assert (Hr : rstrip u = rstrip p).
  { destruct Hu as [->| ->]; [reflexivity|].
    apply rstrip_app_blank. now repeat constructor. }
  assert (Hn : nonblank u).
  { destruct (progress_line_nonblank lim p Hp2) as (c & Hin & Hc). exists c.
    split; [|assumption]. destruct Hu as [->| ->]; [assumption|].
    apply in_or_app. now left. }
  assert (Hend : forall q, one_line q -> progress_line lim q ->
                           parse_lines lim (split_lines q) = Ok PyNone).
  { intros q Hq1 Hq2. rewrite (split_lines_one_line q Hq1).
    exact (parse_lines_progress lim [q] []
             (Forall_cons q Hq2 (Forall_nil _))). }
  destruct ps as [|q ps].
  - simpl app. rewrite parse_conda_stdout_lines. unfold strip.
    assert (Hs : rstrip (lstrip u) = rstrip (lstrip p)).
    { destruct Hu as [->| ->]; [reflexivity|].
      rewrite lstrip_app by now apply (progress_line_nonblank lim).
      apply rstrip_app_blank. now repeat constructor. }
    rewrite Hs. apply Hend.
    + now apply one_line_rstrip, one_line_lstrip.
    + now apply progress_line_rstrip, progress_line_lstrip.
  - rewrite parse_block by assumption. rewrite Hr. apply Hend.
    + now apply one_line_rstrip.
    + now apply progress_line_rstrip.
Qed.

(** C10. For every stdout that is empty, or whose lines (a line feed
    between them, or one after each) all decode, alone, to an object with a
    [progress] or a [maxval] key, [parse_conda_stdout] returns [None].
    Empty stdout is the case of no line. *)
Theorem parse_progress_only_is_none (lim : limits) (ps : list str)
    (stdout : str) :
  Forall one_line ps ->
  Forall (progress_line lim) ps ->
  stdout = join_lines ps \/ stdout = lines_block ps ->
  parse_conda_stdout lim stdout = Ok PyNone.
Proof.
  intros Hone Hprog Hout.
  destruct ps as [|q ps0]; [now destruct Hout as [->| ->]|].
  destruct (@exists_last _ (q :: ps0)) as (ps' & p & E); [discriminate|].
  rewrite E in *. clear E q ps0.
  apply Forall_app in Hone as [Hone Hp1]. apply Forall_app in Hprog as [Hprog Hp2].
  inversion Hp1; inversion Hp2; subst.
  rewrite join_lines_last, lines_block_last in Hout.
  destruct Hout as [->| ->]; apply (parse_progress_only lim ps' p); auto.
Qed.

Lemma parse_progress_only_is_none_witness :
  parse_conda_stdout cpython [] = Ok PyNone
  /\ parse_conda_stdout cpython
       (join_lines [progress_report_0; progress_report_1])
     = Ok PyNone
  /\ parse_conda_stdout cpython
       (lines_block [progress_report_0; progress_report_1])
     = Ok PyNone.
Proof.
  assert (H : Forall (progress_line cpython)
                [progress_report_0; progress_report_1])
    by (repeat constructor; eexists;
        (split; [vm_compute; reflexivity|reflexivity])).
  assert (H1 : Forall one_line [progress_report_0; progress_report_1])
    by repeat constructor.
  split; [|split].
  - apply (parse_progress_only_is_none cpython [] []); [constructor|constructor|].
    left. reflexivity.
  - apply (parse_progress_only_is_none cpython
             [progress_report_0; progress_report_1]);
      [exact H1|exact H|]. left. reflexivity.
  - apply (parse_progress_only_is_none cpython
             [progress_report_0; progress_report_1]);
      [exact H1|exact H|]. right. reflexivity.
Defined.

(** ** The command builder *)

Lemma tokens_of_blank (o : option str) : blank o -> tokens_of o = [].
Proof.
  destruct o as [s|]; simpl; [|reflexivity].
  intros H. now rewrite (strip_blank s H).
Qed.

(** Both injections splice the tokens of their parameter after the first two
    items of the command. *)
Lemma add_channels_tokens (cmd : command) (o : option str) :
  add_channels_to_command cmd o
  = firstn 2 cmd ++ dashc (tokens_of o) ++ skipn 2 cmd.
Proof.
  unfold add_channels_to_command, tokens_of.
  destruct o as [[|c s]|]; [| reflexivity |];
    change (cmd = firstn 2 cmd ++ skipn 2 cmd); symmetry; apply firstn_skipn.
Qed.

Lemma add_extras_tokens (cmd : command) (o : option str) :
  add_extras_to_command cmd o = firstn 2 cmd ++ tokens_of o ++ skipn 2 cmd.
Proof.
  unfold add_extras_to_command, tokens_of.
  destruct o as [[|c s]|]; [| reflexivity |];
    change (cmd = firstn 2 cmd ++ skipn 2 cmd); symmetry; apply firstn_skipn.
Qed.

(** The tokens of a parameter are never empty. *)
Lemma split_ws_from_nonempty (s cur : str) (tok : str) :
  In tok (split_ws_from cur s) -> tok <> [].
Proof.
  revert cur. induction s as [|c s IH]; intros cur; simpl.
  - destruct cur as [|a cur]; [intros []|].
    intros [<-|[]] E. apply (f_equal (@length char)) in E.
    rewrite length_rev in E. discriminate.
  - destruct (isspace c); [|apply IH].
    destruct cur as [|a cur]; [apply IH|].
    intros [<-|H]; [|exact (IH [] H)].
    intros E. apply (f_equal (@length char)) in E.
    rewrite length_rev in E. discriminate.
Qed.

Lemma tokens_of_nonempty (o : option str) (tok : str) :
  In tok (tokens_of o) -> tok <> [].
Proof.
  destruct o as [s|]; [apply split_ws_from_nonempty|intros []].
Qed.

(** C9. Injecting a channels or an extra-arguments value that is [None],
    empty or made of whitespace only gives back the base command: no token,
    and so no empty token, is inserted. *)
Theorem blank_injection_is_identity (cmd : command) (o : option str) :
  blank o ->
  add_channels_to_command cmd o = cmd /\ add_extras_to_command cmd o = cmd.
Proof.
  intros H.
  rewrite add_channels_tokens, add_extras_tokens, (tokens_of_blank o H).
  change (firstn 2 cmd ++ skipn 2 cmd = cmd /\ firstn 2 cmd ++ skipn 2 cmd = cmd).
  now rewrite firstn_skipn.
Qed.

Lemma blank_injection_is_identity_witness :
  let cmd := [py "conda"; py "install"; py "--json"; py "numpy"] in
  let spaces := Some ([32; 160; 9; 8195]%N) in
  blank spaces /\
  add_channels_to_command cmd spaces = cmd /\
  add_extras_to_command cmd spaces = cmd.
Proof.
  split.
  - simpl. repeat constructor.
  - apply (blank_injection_is_identity
             [py "conda"; py "install"; py "--json"; py "numpy"]
             (Some ([32; 160; 9; 8195]%N))).
    simpl. repeat constructor.
Defined.

(** ** The command runner *)

Section Runner.

Variable World : Type.
Variable lim : limits.
Variable run_process : World -> command -> (Z * str * str) * World.

(** The process is called once, with the command after both injections; the
    outcome is a function of its answer and the state is left alone. *)
Lemma run_conda_command_eq (module : AnsibleModule) (cmd : command)
    (s : mstate World) :
  _run_conda_command lim run_process module cmd s
  = (runner_outcome lim (final_command module cmd)
       (fst (run_process (world s) (final_command module cmd))),
     {| world := snd (run_process (world s) (final_command module cmd));
        issued := issued s ++ [final_command module cmd] |}).
Proof.
  unfold _run_conda_command, bind, run_command, lift, ret, raise,
    runner_outcome, tool_error_message, rbind.
  fold (final_command module cmd).
  destruct (run_process (world s) (final_command module cmd))
    as [[[rc stdout] stderr] w]; cbn [fst snd].
  destruct (parse_conda_stdout lim stdout) as [parsed|e]; [|reflexivity].
  destruct (negb (rc =? 0)%Z || is_none parsed); [|reflexivity].
  destruct (is_none parsed); [reflexivity|].
  destruct (py_in (py "message") parsed) as [[|]|]; try reflexivity.
  destruct (py_getitem parsed (py "message")); reflexivity.
Qed.

Lemma run_conda_command_state (module : AnsibleModule) (cmd : command)
    (s : mstate World) :
  snd (_run_conda_command lim run_process module cmd s)
  = {| world := snd (run_process (world s) (final_command module cmd));
       issued := issued s ++ [final_command module cmd] |}.
Proof. now rewrite run_conda_command_eq. Qed.

Lemma run_conda_package_command_eq (module : AnsibleModule) (name : str)
    (version : option str) (cmd : command) (s : mstate World) :
  _run_conda_package_command lim run_process module name version cmd s
  = (package_outcome name version
       (fst (_run_conda_command lim run_process module cmd s)),
     snd (_run_conda_command lim run_process module cmd s)).
Proof.
  unfold _run_conda_package_command, try_except, package_outcome.
  destruct (_run_conda_command lim run_process module cmd s) as [[a|e] s'];
    cbn [fst snd]; [reflexivity|].
  destruct e; try reflexivity.
  unfold bind, lift, raise, rbind.
  destruct (is_package_not_found output) as [[|]|]; reflexivity.
Qed.

Lemma check_package_installed_eq (module : AnsibleModule) (conda name : str)
    (version : option str) (s : mstate World) :
  _check_package_installed lim run_process module conda name version s
  = (rbind (fst (_run_conda_package_command lim run_process module name version
                   (query_command conda name version) s))
           (fun '(output, stderr) => classify_dry_run output stderr),
     snd (_run_conda_package_command lim run_process module name version
            (query_command conda name version) s)).
Proof.
  unfold _check_package_installed, bind. fold (query_command conda name version).
  destruct (_run_conda_package_command lim run_process module name version
              (query_command conda name version) s) as [[[output stderr]|e] s'];
    cbn [fst snd rbind]; [|reflexivity].
  unfold classify_dry_run, lift, ret, raise, rbind.
  destruct (py_in (py "message") output) as [[|]|]; try reflexivity.
  - destruct (py_getitem output (py "message")) as [msg|]; [|reflexivity].
    destruct (py_eq_str msg already_installed_message); [reflexivity|].
    destruct (py_in (py "actions") output) as [[|]|]; try reflexivity.
    destruct (py_getitem output (py "actions")) as [a|]; [|reflexivity].
    destruct (py_len a) as [n|]; [|reflexivity].
    destruct (0 <? n); reflexivity.
  - destruct (py_in (py "actions") output) as [[|]|]; try reflexivity.
    destruct (py_getitem output (py "actions")) as [a|]; [|reflexivity].
    destruct (py_len a) as [n|]; [|reflexivity].
    destruct (0 <? n); reflexivity.
Qed.

End Runner.

(** C2, as the code has it. Running a command injects the channel flags
    first and the extra arguments into the result afterwards: in the command
    line handed to the process the extra arguments stand at position 2,
    right after the executable and the subcommand, and the [--channel] pairs
    follow them. *)
Theorem extras_stand_before_channels (World : Type) (lim : limits)
    (run_process : World -> command -> (Z * str * str) * World)
    (module : AnsibleModule) (exe sub : str) (rest : list str)
    (s : mstate World) :
  let p := module_params module in
  let ran := issued (snd (_run_conda_command lim run_process module
                            (exe :: sub :: rest) s)) in
  ran = issued s
        ++ [add_extras_to_command
              (add_channels_to_command (exe :: sub :: rest) (channels p))
              (extra_args p)]
  /\ ran = issued s
           ++ [exe :: sub :: tokens_of (extra_args p)
                 ++ dashc (tokens_of (channels p)) ++ rest].
Proof.
  cbv zeta. rewrite run_conda_command_state. cbn [issued].
  split; [reflexivity|]. do 2 f_equal. unfold final_command.
  rewrite add_extras_tokens, add_channels_tokens. reflexivity.
Qed.

(** C2, as the claim states it, fails: with one channel and one extra
    argument the command handed to the process has the extra argument at
    position 2 and the channel pair after it, which is not what injecting the
    extra arguments first and the channels afterwards would give. *)
Lemma channels_first_counterexample :
  let cmd := [py "conda"; py "install"; py "--json"; py "numpy"] in
  let ran := issued (snd (_run_conda_command cpython scripted numpy_forge_quiet cmd
                            (start []))) in
  ran = [[py "conda"; py "install"; py "--quiet"; py "--channel";
          py "conda-forge"; py "--json"; py "numpy"]]
  /\ ran <> [add_channels_to_command
               (add_extras_to_command cmd (Some (py "--quiet")))
               (Some (py "conda-forge"))]
  /\ nth 2 (hd [] ran) [] <> py "--channel".
Proof.
  split; [reflexivity|]. split; vm_compute; discriminate.
Qed.

Lemma is_none_true (v : pyval) : is_none v = true <-> v = PyNone.
Proof. destruct v; simpl; split; congruence. Qed.

(** C4, at stdout that is JSON but not an object, an array or a string.
    With stdout [5] the runner raises [TypeError]: with exit code 1 no
    [CondaCommandError] is raised, and with exit code 0 the parsed result is
    not returned.  The [in] test of [parse_conda_stdout] is applied to the
    number; the docstring of the parser promises the parsed JSON or [None],
    that of the runner a [CondaCommandError]. *)
Lemma runner_type_error_on_number :
  fst (_run_conda_command cpython scripted (numpy Present None)
         [py "conda"; py "install"; py "--json"; py "numpy"]
         (start [(1%Z, js "5", [])])) = Raise TypeError
  /\ fst (_run_conda_command cpython scripted (numpy Present None)
            [py "conda"; py "install"; py "--json"; py "numpy"]
            (start [(0%Z, js "5", [])])) = Raise TypeError.
Proof. split; vm_compute; reflexivity. Qed.

(** C3, at a tool error whose parsed output is a JSON string.  With exit
    code 1 and the JSON string ['exception_name'] on stdout the runner
    raises a [CondaCommandError] without the marker, and the package-scoped
    command raises [TypeError] instead of raising it again: the [except]
    clause indexes the string by ['exception_name'] and never reaches its
    own [else: raise]. *)
Lemma package_command_type_error_on_string :
  let cmd := [py "conda"; py "remove"; py "--json"; py "numpy"] in
  let s := start [(1%Z, js "'exception_name'", [])] in
  fst (_run_conda_command cpython scripted (numpy Absent None) cmd s)
  = Raise (CondaCommandError cmd PyNone (PyStr (py "exception_name"))
             (js "'exception_name'") [])
  /\ has_not_found_marker (PyStr (py "exception_name")) = false
  /\ fst (_run_conda_package_command cpython scripted (numpy Absent None) (py "numpy")
            None cmd s) = Raise TypeError.
Proof. repeat split; vm_compute; reflexivity. Qed.

Lemma py_eq_str_true (v : pyval) (s : str) :
  py_eq_str v s = true <-> v = PyStr s.
Proof.
  destruct v; simpl; try (split; [discriminate|congruence]).
  rewrite str_eqb_eq. split; congruence.
Qed.

(** C5, at an object whose [actions] entry has no length.  For the output
    [{"actions": 5}] the package is not classified and no
    [CondaUnexpectedOutputError] is raised: [len] raises [TypeError], where
    the docstring promises [CondaUnexpectedOutputError] for JSON the
    function does not expect. *)
Lemma dry_run_type_error_on_actions :
  fst (_check_package_installed cpython scripted (numpy Present None) (py "conda")
         (py "numpy") None (start [(0%Z, js "{'actions': 5}", [])]))
  = Raise TypeError.
Proof. vm_compute. reflexivity. Qed.

(** ** The reconciler *)

Section Reconciler.

Variable World : Type.
Variable lim : limits.
Variable run_process : World -> command -> (Z * str * str) * World.
Variable find_executable : str -> option str.
Variable isfile : str -> bool.

#[local] Abbreviation find_conda := (@_find_conda World find_executable isfile).
#[local] Abbreviation check_installed := (_check_package_installed lim run_process).
#[local] Abbreviation install := (_install_package lim run_process).
#[local] Abbreviation uninstall := (_uninstall_package lim run_process).
#[local] Abbreviation main' := (main lim run_process find_executable isfile).

(** Looking for the executable runs nothing. *)
Lemma find_conda_state (executable : option str) (s : mstate World) :
  snd (find_conda executable s) = s.
Proof.
  unfold _find_conda, fail_json, raise, ret.
  destruct executable as [[|c path]|].
  - destruct (find_executable (py "conda")) as [[|c conda]|]; reflexivity.
  - destruct (isfile (c :: path)); reflexivity.
  - destruct (find_executable (py "conda")) as [[|c conda]|]; reflexivity.
Qed.

(** [_install_package] never returns: it exits or raises. *)
Lemma install_never_returns (module : AnsibleModule) (conda name : str)
    (version : option str) (s : mstate World) :
  exists e, fst (install module conda name version s) = Raise e.
Proof.
  unfold _install_package, bind, exit_json, raise.
  destruct (_run_conda_package_command _ _ _ _ _ _) as [[[output stderr]|e] s'];
    cbn [fst]; eauto.
Qed.

(** [main] once the executable is found and the request is accepted. *)
Lemma main_after_check (module : AnsibleModule) (conda : str)
    (s0 s1 : mstate World) :
  let p := module_params module in
  find_conda (executable p) s0 = (Ok conda, s1) ->
  is_latest (state p) && is_some (version p) = false ->
  main' module s0
  = match check_installed module conda (name p) (version p) s1 with
    | (Raise e, s2) => (Raise e, s2)
    | (Ok installed, s2) =>
        if negb installed && negb (is_absent (state p))
        then match install module conda (name p) (version p) s2 with
             | (Raise e, s3) => (Raise e, s3)
             | (Ok _, s3) => (Raise (SystemExit (ExitJson [(py "changed", PyBool false)])), s3)
             end
        else if is_absent (state p)
        then match uninstall module conda (name p) s2 with
             | (Raise (CondaPackageNotFoundError _ _), s3)
             | (Ok _, s3) =>
                 (Raise (SystemExit (ExitJson [(py "changed", PyBool false)])), s3)
             | (Raise e, s3) => (Raise e, s3)
             end
        else (Raise (SystemExit (ExitJson [(py "changed", PyBool false)])), s2)
    end.
Proof.
  intros p Hfind Hok. unfold main. fold p.
  unfold bind at 1. rewrite Hfind.
  unfold bind at 1. rewrite Hok. unfold ret at 1.
  unfold bind at 1.
  destruct (check_installed module conda (name p) (version p) s1)
    as [[installed|e] s2]; [|reflexivity].
  unfold bind at 1.
  destruct (negb installed && negb (is_absent (state p))) eqn:Einst.
  - destruct (install module conda (name p) (version p) s2) as [[[]|e] s3] eqn:Ei;
      [|reflexivity].
    apply andb_true_iff in Einst as [_ Hab]. apply negb_true_iff in Hab.
    rewrite Hab. reflexivity.
  - unfold ret at 1. unfold bind at 1.
    destruct (is_absent (state p)); [|reflexivity].
    unfold try_except.
    destruct (uninstall module conda (name p) s2) as [[[]|e] s3];
      [reflexivity|].
    destruct e; reflexivity.
Qed.

(** The dry-run query runs one command line: the query, after injection. *)
Lemma check_installed_state (module : AnsibleModule) (conda name : str)
    (version : option str) (s : mstate World) :
  issued (snd (check_installed module conda name version s))
  = issued s ++ [final_command module (query_command conda name version)].
Proof.
  rewrite check_package_installed_eq. cbn [snd].
  rewrite run_conda_package_command_eq. cbn [snd].
  now rewrite run_conda_command_state.
Qed.

(** C6. In every invocation that reaches the dry-run query (the executable
    is found and the request is not latest with a version), if the query
    classifies the requested name and version as installed and the desired
    state is not absent, [main] ends with [exit_json(changed=False)] and the
    only command line handed to the process is the dry-run query: no install
    and no remove command. *)
Theorem satisfied_reports_unchanged (module : AnsibleModule) (conda : str)
    (s0 s1 s2 : mstate World) :
  let p := module_params module in
  find_conda (executable p) s0 = (Ok conda, s1) ->
  is_latest (state p) && is_some (version p) = false ->
  check_installed module conda (name p) (version p) s1 = (Ok true, s2) ->
  state p <> Absent ->
  main' module s0 = (unchanged, s2)
  /\ issued s2
     = issued s0
       ++ [final_command module (query_command conda (name p) (version p))].
Proof.
  intros p Hfind Hok Hcheck Hstate. split.
  - rewrite (main_after_check module conda s0 s1 Hfind Hok). fold p. rewrite Hcheck.
    cbn [negb andb]. destruct (state p); [reflexivity|congruence|reflexivity].
  - pose proof (find_conda_state (executable p) s0) as Hs.
    rewrite Hfind in Hs. cbn [snd] in Hs. subst s1.
    pose proof (check_installed_state module conda (name p) (version p) s0) as Hi.
    rewrite Hcheck in Hi. exact Hi.
Qed.

(** C7. Once the executable is found and the request accepted:
    with desired state absent, a [CondaPackageNotFoundError] raised by the
    remove command is swallowed and [main] ends with
    [exit_json(changed=False)]; raised by the dry-run query, or by the
    install command, it leaves [main] uncaught. *)
Theorem not_found_swallowed_on_remove_only (module : AnsibleModule)
    (conda : str) (s0 s1 : mstate World) :
  let p := module_params module in
  find_conda (executable p) s0 = (Ok conda, s1) ->
  is_latest (state p) && is_some (version p) = false ->
  (forall installed s2 s3 n v,
     state p = Absent ->
     check_installed module conda (name p) (version p) s1 = (Ok installed, s2) ->
     uninstall module conda (name p) s2
     = (Raise (CondaPackageNotFoundError n v), s3) ->
     main' module s0 = (unchanged, s3))
  /\ (forall s2 n v,
        check_installed module conda (name p) (version p) s1
        = (Raise (CondaPackageNotFoundError n v), s2) ->
        main' module s0 = (Raise (CondaPackageNotFoundError n v), s2))
  /\ (forall s2 s3 n v,
        state p <> Absent ->
        check_installed module conda (name p) (version p) s1 = (Ok false, s2) ->
        install module conda (name p) (version p) s2
        = (Raise (CondaPackageNotFoundError n v), s3) ->
        main' module s0 = (Raise (CondaPackageNotFoundError n v), s3)).
Proof.
  intros p Hfind Hok.
  rewrite (main_after_check module conda s0 s1 Hfind Hok). fold p.
  split; [|split].
  - intros installed s2 s3 n v Hstate Hcheck Hun.
    rewrite Hcheck, Hstate. cbn [is_absent negb]. rewrite andb_false_r.
    now rewrite Hun.
  - intros s2 n v Hcheck. now rewrite Hcheck.
  - intros s2 s3 n v Hstate Hcheck Hinst. rewrite Hcheck.
    assert (Hab : is_absent (state p) = false)
      by (destruct (state p); [reflexivity|congruence|reflexivity]).
    rewrite Hab. cbn [negb andb]. now rewrite Hinst.
Qed.

(** C8, as the code has it. With state latest and a version, [main] runs no
    command and leaves the world as it found it; when the executable is
    found it ends with [fail_json] and the message of the version conflict,
    and when the executable is not found it has already ended with the
    failure of [_find_conda]. *)
Theorem latest_with_version_fails (module : AnsibleModule) (v : str)
    (s0 : mstate World) :
  let p := module_params module in
  state p = Latest ->
  version p = Some v ->
  snd (main' module s0) = s0
  /\ (forall conda,
        fst (find_conda (executable p) s0) = Ok conda ->
        fst (main' module s0)
        = Raise (SystemExit (FailJson version_conflict_message)))
  /\ (forall e,
        fst (find_conda (executable p) s0) = Raise e ->
        fst (main' module s0) = Raise e).
Proof.
  intros p Hstate Hversion.
  assert (Hmain : main' module s0
                  = match find_conda (executable p) s0 with
                    | (Ok _, s1) =>
                        (Raise (SystemExit (FailJson version_conflict_message)), s1)
                    | (Raise e, s1) => (Raise e, s1)
                    end).
  { unfold main. fold p. unfold bind at 1.
    destruct (find_conda (executable p) s0) as [[conda|e] s1]; [|reflexivity].
    unfold bind at 1. rewrite Hstate, Hversion. reflexivity. }
  rewrite Hmain. clear Hmain.
  pose proof (find_conda_state (executable p) s0) as Hs.
  destruct (find_conda (executable p) s0) as [[conda|e] s1]; cbn [fst snd] in *;
    subst s1; repeat split; congruence.
Qed.

End Reconciler.

Lemma satisfied_reports_unchanged_witness :
  run_main cpython scripted on_path no_file (numpy Present None) [says_installed]
  = (unchanged,
     {| world := [];
        issued := [query_command (py "/bin/conda") (py "numpy") None] |}).
Proof.
  refine (proj1 (@satisfied_reports_unchanged script cpython scripted on_path no_file
                   (numpy Present None) (py "/bin/conda")
                   (start [says_installed]) (start [says_installed]) _
                   _ _ _ _)).
  - reflexivity.
  - reflexivity.
  - vm_compute. reflexivity.
  - discriminate.
Defined.

Lemma not_found_swallowed_on_remove_only_witness :
  run_main cpython scripted on_path no_file (numpy Absent None)
    [says_actions; says_not_found]
  = (unchanged,
     {| world := [];
        issued := [query_command (py "/bin/conda") (py "numpy") None;
                   [py "/bin/conda"; py "remove"; py "--yes"; py "--json";
                    py "numpy"]] |})
  /\ fst (run_main cpython scripted on_path no_file (numpy Present None)
            [says_not_found])
     = Raise (CondaPackageNotFoundError (py "numpy") None)
  /\ fst (run_main cpython scripted on_path no_file (numpy Present (Some (py "1.0")))
            [says_actions; says_not_found])
     = Raise (CondaPackageNotFoundError (py "numpy") (Some (py "1.0"))).
Proof.
  split; [|split].
  - refine (proj1 (@not_found_swallowed_on_remove_only script cpython scripted on_path
                     no_file (numpy Absent None) (py "/bin/conda")
                     (start [says_actions; says_not_found])
                     (start [says_actions; says_not_found]) _ _)
                  false _ _ (py "numpy") None _ _ _).
    + reflexivity.
    + reflexivity.
    + reflexivity.
    + vm_compute. reflexivity.
    + vm_compute. reflexivity.
  - refine (f_equal fst
              (proj1 (proj2 (@not_found_swallowed_on_remove_only script cpython scripted
                               on_path no_file (numpy Present None)
                               (py "/bin/conda") (start [says_not_found])
                               (start [says_not_found]) _ _))
                     _ (py "numpy") None _)).
    + reflexivity.
    + reflexivity.
    + vm_compute. reflexivity.
  - refine (f_equal fst
              (proj2 (proj2 (@not_found_swallowed_on_remove_only script cpython scripted
                               on_path no_file
                               (numpy Present (Some (py "1.0")))
                               (py "/bin/conda")
                               (start [says_actions; says_not_found])
                               (start [says_actions; says_not_found]) _ _))
                     _ _ (py "numpy") (Some (py "1.0")) _ _ _)).
    + reflexivity.
    + reflexivity.
    + discriminate.
    + vm_compute. reflexivity.
    + vm_compute. reflexivity.
Defined.

Lemma latest_with_version_fails_witness :
  snd (run_main cpython scripted on_path no_file (numpy Latest (Some (py "1.0")))
         [says_installed]) = start [says_installed]
  /\ fst (run_main cpython scripted on_path no_file (numpy Latest (Some (py "1.0")))
            [says_installed])
     = Raise (SystemExit (FailJson version_conflict_message)).
Proof.
  pose proof (@latest_with_version_fails script cpython scripted on_path no_file
                (numpy Latest (Some (py "1.0"))) (py "1.0")
                (start [says_installed]) eq_refl eq_refl) as (Hs & Hf & _).
  split; [exact Hs | exact (Hf (py "/bin/conda") eq_refl)].
Defined.

(** C8, as the claim states it, fails when no conda executable is found:
    [main] then ends with the failure of [_find_conda], not with the version
    conflict. *)
Lemma latest_with_version_counterexample :
  run_main cpython scripted not_on_path no_file (numpy Latest (Some (py "1.0")))
    [says_installed]
  = (Raise (SystemExit (FailJson (py "could not find conda executable"))),
     start [says_installed])
  /\ py "could not find conda executable" <> version_conflict_message.
Proof. split; [reflexivity|discriminate]. Qed.

(** * Further properties *)

(** ** The command builder *)

Lemma dashc_length (l : list str) : length (dashc l) = 2 * length l.
Proof. induction l as [|c l IH]; simpl; [reflexivity|]. rewrite IH. lia. Qed.

Lemma dashc_nth (l : list str) (i : nat) (c : str) :
  nth_error l i = Some c ->
  nth_error (dashc l) (2 * i) = Some (py "--channel")
  /\ nth_error (dashc l) (2 * i + 1) = Some c.
Proof.
  revert i. induction l as [|a l IH]; intros [|i] H; simpl in H; try discriminate.
  - injection H as ->. split; reflexivity.
  - replace (2 * S i) with (S (S (2 * i))) by lia.
    replace (S (S (2 * i)) + 1) with (S (S (2 * i + 1))) by lia.
    cbn [dashc nth_error]. exact (IH i H).
Qed.

(** X1. Channel injection is positional: into a command that starts with
    executable and subcommand it puts, right after them, ["--channel"] and
    the channel for each channel in order (the i-th pair at positions 2+2i
    and 3+2i), and the command grows by two tokens per channel. *)
Theorem channels_injection_shape (exe sub : str) (rest : list str)
    (o : option str) :
  let toks := tokens_of o in
  let out := add_channels_to_command (exe :: sub :: rest) o in
  out = exe :: sub :: dashc toks ++ rest
  /\ length out = length (exe :: sub :: rest) + 2 * length toks
  /\ forall i c, nth_error toks i = Some c ->
       nth_error out (2 + 2 * i) = Some (py "--channel")
       /\ nth_error out (3 + 2 * i) = Some c.
Proof.
  cbv zeta. rewrite add_channels_tokens. cbn [firstn skipn app].
  split; [reflexivity|]. split.
  - cbn [length]. rewrite length_app, dashc_length. lia.
  - intros i c H. destruct (dashc_nth _ i c H) as [H0 H1].
    assert (Hlt : 2 * i + 1 < length (dashc (tokens_of o))).
    { apply nth_error_Some. rewrite H1. discriminate. }
    replace (3 + 2 * i) with (2 + (2 * i + 1)) by lia.
    change (nth_error (dashc (tokens_of o) ++ rest) (2 * i)
            = Some (py "--channel")
            /\ nth_error (dashc (tokens_of o) ++ rest) (2 * i + 1) = Some c).
    rewrite !nth_error_app1 by lia. auto.
Qed.

(** X2. A command of two tokens or fewer has nothing after position 2: the
    injected tokens are appended to it. *)
Theorem short_command_injection (cmd : command) (o : option str) :
  length cmd <= 2 ->
  add_channels_to_command cmd o = cmd ++ dashc (tokens_of o)
  /\ add_extras_to_command cmd o = cmd ++ tokens_of o.
Proof.
  intros H. rewrite add_channels_tokens, add_extras_tokens.
  rewrite (firstn_all2 cmd H), (skipn_all2 cmd H), !app_nil_r. auto.
Qed.

Lemma short_command_injection_witness :
  add_channels_to_command [py "conda"] (Some (py "a b"))
  = [py "conda"; py "--channel"; py "a"; py "--channel"; py "b"]
  /\ add_extras_to_command [py "conda"] (Some (py "a b"))
     = [py "conda"; py "a"; py "b"].
Proof.
  apply (short_command_injection [py "conda"] (Some (py "a b"))).
  simpl. lia.
Defined.

Lemma split_ws_from_no_space (s cur : str) (tok : str) :
  Forall (fun c => isspace c = false) cur ->
  In tok (split_ws_from cur s) -> Forall (fun c => isspace c = false) tok.
Proof.
  revert cur. induction s as [|c s IH]; intros cur Hcur; simpl.
  - destruct cur as [|a cur]; [intros []|].
    intros [<-|[]]. now apply Forall_rev.
  - destruct (isspace c) eqn:Hc.
    + destruct cur as [|a cur]; [apply IH; constructor|].
      intros [<-|H]; [now apply Forall_rev|]. apply (IH []); [constructor|exact H].
    + apply IH. now constructor.
Qed.

Lemma tokens_of_words (o : option str) (tok : str) :
  In tok (tokens_of o) -> is_word tok.
Proof.
  intros H. split; [exact (tokens_of_nonempty o tok H)|].
  destruct o as [s|]; [|destruct H].
  exact (split_ws_from_no_space _ [] tok (Forall_nil _) H).
Qed.

Lemma in_firstn_skipn (n : nat) (cmd : command) (x : str) :
  In x (firstn n cmd) \/ In x (skipn n cmd) <-> In x cmd.
Proof. rewrite <- in_app_iff. now rewrite firstn_skipn. Qed.

Lemma dashc_in (l : list str) (x : str) :
  In x (dashc l) -> x = py "--channel" \/ In x l.
Proof.
  induction l as [|c l IH]; simpl; [intros []|].
  intros [<-|[<-|H]]; auto. destruct (IH H); auto.
Qed.

(** X3. Whatever the parameter holds, every token an injection adds is a
    word: not empty and without whitespace inside (or, for channels, the
    flag ["--channel"]); every other token of the result is a token of the
    command. *)
Theorem injected_tokens_are_words (cmd : command) (o : option str) (tok : str) :
  (In tok (add_extras_to_command cmd o) -> In tok cmd \/ is_word tok)
  /\ (In tok (add_channels_to_command cmd o) ->
      In tok cmd \/ tok = py "--channel" \/ is_word tok).
Proof.
  rewrite add_channels_tokens, add_extras_tokens. split; intros H;
    apply in_app_iff in H as [H|H];
    try (left; apply (in_firstn_skipn 2); now left);
    apply in_app_iff in H as [H|H];
    try (left; apply (in_firstn_skipn 2); now right).
  - right. exact (tokens_of_words o tok H).
  - right. destruct (dashc_in _ _ H) as [->|H']; [now left|right].
    exact (tokens_of_words o tok H').
Qed.

(** The tokens of the command are still there after both injections. *)
Lemma final_command_keeps (module : AnsibleModule) (cmd : command) (x : str) :
  In x cmd -> In x (final_command module cmd).
Proof.
  intros H. unfold final_command.
  rewrite add_extras_tokens, !in_app_iff.
  assert (H' : In x (add_channels_to_command cmd (channels (module_params module)))).
  { rewrite add_channels_tokens, !in_app_iff.
    apply (in_firstn_skipn 2) in H. tauto. }
  apply (in_firstn_skipn 2) in H'. tauto.
Qed.

(** ** The install target *)

Lemma split_at_equals (a a' b b' : str) :
  no_equals a -> no_equals a' ->
  a ++ ch "=" :: b = a' ++ ch "=" :: b' -> a = a' /\ b = b'.
Proof.
  intros Ha. revert a'. induction Ha as [|c a Hc _ IH]; intros a' Ha' E.
  - destruct Ha' as [|c' a' Hc' _]; simpl in E.
    + injection E as ->. auto.
    + injection E as <- _. discriminate.
  - destruct Ha' as [|c' a' Hc' Ha']; simpl in E.
    + injection E as -> _. discriminate.
    + injection E as -> E. destruct (IH a' Ha' E) as [-> ->]. auto.
Qed.

(** X4. For names without an equals sign the install target tells the
    request: two requests with the same target have the same name and the
    same version, and the target of a request without a version is never
    the target of one with a version. *)
Theorem install_target_injective (n n' : str) (v v' : option str) :
  no_equals n -> no_equals n' ->
  get_install_target n v = get_install_target n' v' ->
  n = n' /\ v = v'.
Proof.
  intros Hn Hn'. unfold get_install_target.
  change (py "=") with [ch "="].
  destruct v as [v|], v' as [v'|]; cbn [app]; intros E.
  - destruct (split_at_equals n n' v v' Hn Hn' E) as [-> ->]. auto.
  - exfalso. rewrite <- E in Hn'. apply Forall_app in Hn' as [_ H].
    inversion H as [|? ? Hc _]. discriminate.
  - exfalso. rewrite E in Hn. apply Forall_app in Hn as [_ H].
    inversion H as [|? ? Hc _]. discriminate.
  - auto.
Qed.

Lemma install_target_injective_witness :
  no_equals (py "scipy")
  /\ (py "scipy" = py "scipy" /\ Some (py "0.14") = Some (py "0.14")).
Proof.
  split; [repeat constructor|].
  apply (install_target_injective (py "scipy") (py "scipy")
           (Some (py "0.14")) (Some (py "0.14")));
    [repeat constructor | repeat constructor | reflexivity].
Defined.

(** ** The output parser *)

Lemma lstrip_blank_app (a t : str) :
  Forall (fun c => isspace c = true) a -> lstrip (a ++ t) = lstrip t.
Proof.
  induction 1 as [|c a Hc _ IH]; [reflexivity|]. simpl. now rewrite Hc.
Qed.

Lemma strip_padded (a s b : str) :
  Forall (fun c => isspace c = true) a ->
  Forall (fun c => isspace c = true) b ->
  strip (a ++ s ++ b) = strip s.
Proof.
  intros Ha Hb. unfold strip. rewrite (lstrip_blank_app a _ Ha).
  destruct (blank_or_nonblank s) as [Hs|Hs].
  - rewrite (lstrip_blank s Hs), lstrip_blank; [reflexivity|].
    apply Forall_app. auto.
  - rewrite (lstrip_app s b Hs). now apply rstrip_app_blank.
Qed.

(** X5. Whitespace before and after stdout, of any kind [strip] removes,
    does not change what the parser returns or raises. *)
Theorem parse_ignores_surrounding_whitespace (lim : limits) (a s b : str) :
  Forall (fun c => isspace c = true) a ->
  Forall (fun c => isspace c = true) b ->
  parse_conda_stdout lim (a ++ s ++ b) = parse_conda_stdout lim s.
Proof.
  intros Ha Hb. rewrite !parse_conda_stdout_lines.
  now rewrite (strip_padded a s b Ha Hb).
Qed.

Lemma parse_ignores_surrounding_whitespace_witness :
  parse_conda_stdout cpython
    ([160; 32]%N ++ valid_stdout ++ [newline; 8195%N; newline])
  = parse_conda_stdout cpython valid_stdout.
Proof.
  apply (parse_ignores_surrounding_whitespace cpython [160; 32]%N valid_stdout
           [newline; 8195%N; newline]); repeat constructor.
Defined.

(** X6. The fallback: when the first line of the stripped stdout does not
    decode ([json.loads] raises [ValueError]), the parser does with it what
    [json.loads] does with the stripped stdout once its line feeds are
    taken out: it returns the value, returns [None] on [ValueError], or
    lets [RecursionError] through.  Text that is not JSON, on one line or
    more, so gives [None]. *)
Theorem parse_falls_back_to_whole_text (lim : limits) (s : str) :
  loads lim (hd [] (split_lines (strip s))) = Invalid ->
  parse_conda_stdout lim s
  = match loads lim (remove_newlines (strip s)) with
    | Decoded v => Ok v
    | Invalid => Ok PyNone
    | TooDeep => Raise RecursionError
    end.
Proof.
  intros H. rewrite parse_conda_stdout_lines, <- join_split_lines.
  unfold parse_lines.
  destruct (split_lines (strip s)) as [|l ls]; [reflexivity|].
  cbn [hd] in H. cbn [skip_progress]. rewrite H. reflexivity.
Qed.

Lemma parse_falls_back_to_whole_text_witness :
  parse_conda_stdout cpython (py "Solving environment: failed" ++ [newline]
                              ++ py "try again") = Ok PyNone.
Proof.
  apply (parse_falls_back_to_whole_text cpython
           (py "Solving environment: failed" ++ [newline] ++ py "try again")).
  vm_compute. reflexivity.
Defined.

Lemma py_in_raise (k : str) (v : pyval) (e : exn) :
  py_in k v = Raise e -> e = TypeError /\ not_iterable v.
Proof. destruct v; simpl; intros [=]; subst; auto. Qed.

(** What the loop of the parser raises, and what it leaves. *)
Lemma skip_progress_raise (lim : limits) (ls : list str) (e : exn) :
  skip_progress lim ls = Raise e ->
  (e = TypeError
   /\ exists line v,
        In line ls /\ loads lim line = Decoded v /\ not_iterable v)
  \/ (e = RecursionError /\ exists line, In line ls /\ loads lim line = TooDeep).
Proof.
  induction ls as [|l ls IH]; cbn [skip_progress]; [discriminate|].
  assert (Hrest : skip_progress lim ls = Raise e ->
            (e = TypeError
             /\ exists line v,
                  In line (l :: ls) /\ loads lim line = Decoded v
                  /\ not_iterable v)
            \/ (e = RecursionError
                /\ exists line, In line (l :: ls) /\ loads lim line = TooDeep)).
  { intros H. destruct (IH H) as [(-> & line & w & Hin & Hw & Hs)
                                 |(-> & line & Hin & Hw)].
    - left. split; [reflexivity|]. exists line, w. simpl. auto.
    - right. split; [reflexivity|]. exists line. simpl. auto. }
  destruct (loads lim l) as [v| |] eqn:Hl; [|discriminate|].
  - destruct (py_in (py "progress") v) as [[|]|e1] eqn:H1; cbn [rbind].
    + exact Hrest.
    + destruct (py_in (py "maxval") v) as [[|]|e2] eqn:H2; cbn [rbind].
      * exact Hrest.
      * discriminate.
      * intros [= <-]. destruct (py_in_raise _ _ _ H2) as [-> Hs].
        left. split; [reflexivity|]. exists l, v. simpl. auto.
    + intros [= <-]. destruct (py_in_raise _ _ _ H1) as [-> Hs].
      left. split; [reflexivity|]. exists l, v. simpl. auto.
  - intros [= <-]. right. split; [reflexivity|]. exists l. simpl. auto.
Qed.

Lemma skip_progress_rest (lim : limits) (ls rest : list str) :
  skip_progress lim ls = Ok (inr rest) -> exists k, rest = skipn k ls.
Proof.
  induction ls as [|l ls IH]; cbn [skip_progress].
  - intros [= <-]. now exists 0.
  - assert (Hrest : skip_progress lim ls = Ok (inr rest) ->
                    exists k, rest = skipn k (l :: ls)).
    { intros H. destruct (IH H) as [k ->]. now exists (S k). }
    destruct (loads lim l) as [v| |]; [| |discriminate].
    + destruct (py_in (py "progress") v) as [[|]|]; cbn [rbind];
        [exact Hrest| |discriminate].
      destruct (py_in (py "maxval") v) as [[|]|]; cbn [rbind];
        [exact Hrest|discriminate|discriminate].
    + intros [= <-]. now exists 0.
Qed.

Lemma parse_raises_type_or_recursion_error_aux (lim : limits) (s : str)
    (e : exn) :
  parse_conda_stdout lim s = Raise e ->
  (e = TypeError
   /\ exists line v,
        In line (split_lines (strip s)) /\ loads lim line = Decoded v
        /\ not_iterable v)
  \/ (e = RecursionError
      /\ exists text,
           loads lim text = TooDeep
           /\ (In text (split_lines (strip s))
               \/ exists k, text = join_empty (skipn k (split_lines (strip s))))).
Proof.
  rewrite parse_conda_stdout_lines. unfold parse_lines. intros H.
  destruct (skip_progress lim (split_lines (strip s))) as [[v|rest]|e'] eqn:Hs;
    cbn [rbind] in H.
  - discriminate.
  - destruct (loads lim (join_empty rest)) eqn:Hl; try discriminate.
    injection H as <-. right. split; [reflexivity|].
    exists (join_empty rest). split; [assumption|]. right.
    destruct (skip_progress_rest lim _ rest Hs) as [k ->]. now exists k.
  - injection H as <-.
    destruct (skip_progress_raise lim _ e' Hs)
      as [(-> & line & w & Hin & Hw & Hn)|(-> & line & Hin & Hw)].
    + left. split; [reflexivity|]. now exists line, w.
    + right. split; [reflexivity|]. exists line. auto.
Qed.

(** X7. The parser raises nothing but [TypeError] and [RecursionError]:
    [TypeError] only when a line of the stripped stdout decodes, alone, to
    a value that is not a dict, a list or a string (a number, [true],
    [false] or [null]); [RecursionError] only when [json.loads] raises it,
    on a line of the stripped stdout or on its lines joined from some line
    on. *)
Theorem parse_raises_type_or_recursion_error (lim : limits) (s : str)
    (e : exn) :
  parse_conda_stdout lim s = Raise e ->
  (e = TypeError
   /\ exists line v,
        In line (split_lines (strip s)) /\ loads lim line = Decoded v
        /\ not_iterable v)
  \/ (e = RecursionError
      /\ exists text,
           loads lim text = TooDeep
           /\ (In text (split_lines (strip s))
               \/ exists k, text = join_empty (skipn k (split_lines (strip s))))).
Proof. exact (parse_raises_type_or_recursion_error_aux lim s e). Qed.

Lemma parse_raises_type_or_recursion_error_witness :
  (TypeError = TypeError
   /\ exists line v,
        In line (split_lines (strip (js "{'progress': 1}" ++ [newline]
                                     ++ py "42")))
        /\ loads cpython line = Decoded v /\ not_iterable v)
  \/ (TypeError = RecursionError
      /\ exists text,
           loads cpython text = TooDeep
           /\ (In text (split_lines (strip (js "{'progress': 1}" ++ [newline]
                                            ++ py "42")))
               \/ exists k,
                    text = join_empty
                             (skipn k (split_lines
                                         (strip (js "{'progress': 1}"
                                                 ++ [newline] ++ py "42")))))).
Proof.
  apply (parse_raises_type_or_recursion_error cpython
           (js "{'progress': 1}" ++ [newline] ++ py "42") TypeError).
  vm_compute. reflexivity.
Defined.

(** X8. An object with a [progress] or a [maxval] key is returned only from
    stdout that, stripped, spans several lines: on a single line such an
    object is always taken for a progress report. *)
Theorem parse_marked_object_spans_lines (lim : limits) (s : str) (d : dict) :
  parse_conda_stdout lim s = Ok (PyDict d) ->
  has_marker d = true ->
  ~ one_line (strip s).
Proof.
  intros H Hm Hone. rewrite parse_conda_stdout_lines in H.
  rewrite (split_lines_one_line _ Hone) in H. unfold parse_lines in H.
  cbn [skip_progress] in H.
  destruct (loads lim (strip s)) as [v| |] eqn:Hl.
  - unfold has_marker in Hm.
    destruct v; cbn [py_in rbind] in H; try discriminate.
    + destruct (contains (py "progress") s0); cbn [rbind] in H;
        [discriminate|].
      destruct (contains (py "maxval") s0); discriminate.
    + destruct (existsb _ l); cbn [rbind] in H; [discriminate|].
      destruct (existsb _ l); discriminate.
    + destruct (dict_has d0 (py "progress")) eqn:H1; cbn [rbind] in H;
        [discriminate|].
      destruct (dict_has d0 (py "maxval")) eqn:H2; cbn [rbind] in H;
        [discriminate|].
      injection H as <-. rewrite H1, H2 in Hm. discriminate.
  - cbn [rbind join_empty concat] in H. rewrite app_nil_r, Hl in H.
    discriminate.
  - discriminate.
Qed.

Lemma parse_marked_object_spans_lines_witness :
  ~ one_line (strip (js "{" ++ [newline] ++ js "'progress': 1}")).
Proof.
  apply (parse_marked_object_spans_lines cpython
           (js "{" ++ [newline] ++ js "'progress': 1}")
           [(py "progress", PyInt 1)]); vm_compute; reflexivity.
Defined.

(** ** The command runner *)

Lemma parse_conda_stdout_raise (lim : limits) (stdout : str) (e : exn) :
  parse_conda_stdout lim stdout = Raise e ->
  e = TypeError \/ e = RecursionError.
Proof.
  intros H.
  destruct (parse_raises_type_or_recursion_error_aux lim stdout e H)
    as [[-> _]|[-> _]]; auto.
Qed.

(** The key is there when [in] said so: the message is read without
    [KeyError]. *)
Lemma tool_error_message_raise (parsed : pyval) (e : exn) :
  tool_error_message parsed = Raise e -> e = TypeError.
Proof.
  unfold tool_error_message. destruct (is_none parsed); [discriminate|].
  destruct parsed; cbn [py_in py_getitem rbind]; try (intros [= <-]; reflexivity).
  - destruct (contains (py "message") s); [intros [= <-]; reflexivity|discriminate].
  - destruct (existsb _ l); [intros [= <-]; reflexivity|discriminate].
  - unfold dict_has. destruct (dict_get d (py "message")); discriminate.
Qed.

(** The three kinds of exception the runner can raise. *)
Lemma runner_outcome_raise (lim : limits) (cmd : command)
    (answer : Z * str * str) (e : exn) :
  runner_outcome lim cmd answer = Raise e ->
  e = TypeError \/ e = RecursionError
  \/ exists m o so se, e = CondaCommandError cmd m o so se.
Proof.
  destruct answer as [[rc stdout] stderr]. unfold runner_outcome.
  destruct (parse_conda_stdout lim stdout) as [parsed|e0] eqn:Hp; cbn [rbind].
  - destruct (negb (rc =? 0)%Z || is_none parsed); [|discriminate].
    destruct (tool_error_message parsed) as [m|e1] eqn:Hm; cbn [rbind].
    + intros [= <-]. right. right. eauto.
    + intros [= <-]. left. exact (tool_error_message_raise _ _ Hm).
  - intros [= <-]. destruct (parse_conda_stdout_raise _ _ _ Hp); auto.
Qed.

Section RunnerMore.

Variable World : Type.
Variable lim : limits.
Variable run_process : World -> command -> (Z * str * str) * World.

(** X9. When the runner returns, the process exited with code 0, the output
    returned is what the parser made of its stdout and is not [None], the
    stderr returned is its stderr, and exactly one command line was run: the
    command after injection. *)
Theorem runner_success_means_exit_zero (module : AnsibleModule)
    (cmd : command) (s s' : mstate World) (output : pyval) (stderr : str) :
  _run_conda_command lim run_process module cmd s = (Ok (output, stderr), s') ->
  (exists stdout,
     run_process (world s) (final_command module cmd)
     = ((0%Z, stdout, stderr), world s')
     /\ parse_conda_stdout lim stdout = Ok output)
  /\ output <> PyNone
  /\ issued s' = issued s ++ [final_command module cmd].
Proof.
  rewrite run_conda_command_eq.
  destruct (run_process (world s) (final_command module cmd))
    as [[[rc stdout] err] w]. cbn [fst snd]. unfold runner_outcome.
  destruct (parse_conda_stdout lim stdout) as [parsed|e] eqn:Hp; cbn [rbind];
    [|discriminate].
  destruct (negb (rc =? 0)%Z || is_none parsed) eqn:Hc.
  - destruct (tool_error_message parsed); discriminate.
  - apply orb_false_iff in Hc as [Hrc Hn].
    apply negb_false_iff, Z.eqb_eq in Hrc. subst rc.
    intros [= <- <- <-]. cbn [world issued]. repeat split.
    + exists stdout. auto.
    + intros ->. discriminate.
Qed.

(** X10. Once the process has answered, the runner raises nothing but
    [TypeError], [RecursionError] and [CondaCommandError].  A
    [CondaCommandError] always holds the command that was run, what the
    parser made of stdout, and the raw stdout and stderr of the process, and
    it is raised only when the exit code is not 0 or the parser returned
    [None]. *)
Theorem runner_error_contents (module : AnsibleModule) (cmd : command)
    (s s' : mstate World) (e : exn) :
  _run_conda_command lim run_process module cmd s = (Raise e, s') ->
  e = TypeError \/ e = RecursionError
  \/ exists rc stdout stderr parsed message,
       run_process (world s) (final_command module cmd)
       = ((rc, stdout, stderr), world s')
       /\ parse_conda_stdout lim stdout = Ok parsed
       /\ (rc <> 0%Z \/ parsed = PyNone)
       /\ e = CondaCommandError (final_command module cmd) message parsed
                stdout stderr.
Proof.
  rewrite run_conda_command_eq.
  destruct (run_process (world s) (final_command module cmd))
    as [[[rc stdout] err] w]. cbn [fst snd]. unfold runner_outcome.
  destruct (parse_conda_stdout lim stdout) as [parsed|e0] eqn:Hp; cbn [rbind].
  - destruct (negb (rc =? 0)%Z || is_none parsed) eqn:Hc; [|discriminate].
    destruct (tool_error_message parsed) as [m|e1] eqn:Hm; cbn [rbind].
    + intros [= <- <-]. right. right. exists rc, stdout, err, parsed, m.
      cbn [world]. split; [reflexivity|]. split; [exact Hp|].
      split; [|reflexivity].
      apply orb_true_iff in Hc as [Hc|Hc].
      * left. now apply negb_true_iff, Z.eqb_neq in Hc.
      * right. now apply is_none_true.
    + intros [= <- _]. left. exact (tool_error_message_raise _ _ Hm).
  - intros [= <- _]. destruct (parse_conda_stdout_raise _ _ _ Hp); auto.
Qed.

Lemma is_package_not_found_true (output : pyval) :
  is_package_not_found output = Ok true -> has_not_found_marker output = true.
Proof.
  unfold is_package_not_found, has_not_found_marker.
  destruct output; cbn [is_none py_in py_getitem rbind]; try discriminate.
  - destruct (contains _ s); discriminate.
  - destruct (existsb _ l); discriminate.
  - unfold dict_has. destruct (dict_get d (py "exception_name")); cbn [rbind].
    + now intros [= ->].
    + discriminate.
Qed.

(** X11. The package-scoped command raises [CondaPackageNotFoundError] only
    for a [CondaCommandError] of the runner whose parsed output is an object
    with [exception_name] equal to ['PackageNotFoundError'], and then builds
    it from the name and the version it was given; a result of the runner
    is returned as it is. *)
Theorem package_not_found_only_when_reported (module : AnsibleModule)
    (name : str) (version : option str) (cmd : command) (s s' : mstate World) :
  (forall n v,
     _run_conda_package_command lim run_process module name version cmd s
     = (Raise (CondaPackageNotFoundError n v), s') ->
     n = name /\ v = version
     /\ exists c m output so se,
          _run_conda_command lim run_process module cmd s
          = (Raise (CondaCommandError c m output so se), s')
          /\ has_not_found_marker output = true)
  /\ (forall r,
        _run_conda_command lim run_process module cmd s = (Ok r, s') ->
        _run_conda_package_command lim run_process module name version cmd s
        = (Ok r, s')).
Proof.
  rewrite run_conda_package_command_eq. split.
  - intros n v. rewrite run_conda_command_eq.
    cbn [fst snd].
    destruct (runner_outcome lim (final_command module cmd)
                (fst (run_process (world s) (final_command module cmd))))
      as [r|e] eqn:Hr; [discriminate|].
    destruct (runner_outcome_raise _ _ _ _ Hr)
      as [->|[->|(m & o & so & se & ->)]]; [discriminate|discriminate|].
    cbn [package_outcome].
    destruct (is_package_not_found o) as [[|]|e'] eqn:Hnf; cbn [rbind];
      try discriminate.
    + intros [= <- <- <-]. split; [reflexivity|]. split; [reflexivity|].
      exists (final_command module cmd), m, o, so, se.
      split; [reflexivity|]. now apply is_package_not_found_true.
    + intros [= -> _]. unfold is_package_not_found in Hnf.
      destruct o; cbn [is_none py_in py_getitem rbind] in Hnf;
        try discriminate.
      * destruct (contains _ s0); discriminate.
      * destruct (existsb _ l); discriminate.
      * unfold dict_has in Hnf.
        destruct (dict_get d (py "exception_name")); discriminate.
  - intros r H. now rewrite H.
Qed.

End RunnerMore.

Lemma runner_success_means_exit_zero_witness :
  PyDict [(py "success", PyBool true)] <> PyNone
  /\ issued (snd (_run_conda_command cpython scripted (numpy Present None)
                    [py "conda"; py "remove"; py "numpy"]
                    (start [says_removed])))
     = [] ++ [final_command (numpy Present None)
                [py "conda"; py "remove"; py "numpy"]].
Proof.
  refine (proj2 (@runner_success_means_exit_zero script cpython scripted
                   (numpy Present None) [py "conda"; py "remove"; py "numpy"]
                   (start [says_removed]) _
                   (PyDict [(py "success", PyBool true)]) (py "done") _)).
  vm_compute. reflexivity.
Defined.

Lemma runner_error_contents_witness :
  CondaCommandError [py "conda"; py "info"] PyNone PyNone (py "oops") []
  = TypeError
  \/ CondaCommandError [py "conda"; py "info"] PyNone PyNone (py "oops") []
     = RecursionError
  \/ exists rc stdout stderr parsed message,
       scripted [(0%Z, py "oops", [])]
         (final_command (numpy Present None) [py "conda"; py "info"])
       = ((rc, stdout, stderr), [])
       /\ parse_conda_stdout cpython stdout = Ok parsed
       /\ (rc <> 0%Z \/ parsed = PyNone)
       /\ CondaCommandError [py "conda"; py "info"] PyNone PyNone (py "oops") []
          = CondaCommandError
              (final_command (numpy Present None) [py "conda"; py "info"])
              message parsed stdout stderr.
Proof.
  refine (@runner_error_contents script cpython scripted (numpy Present None)
            [py "conda"; py "info"] (start [(0%Z, py "oops", [])])
            {| world := []; issued := [[py "conda"; py "info"]] |} _ _).
  vm_compute. reflexivity.
Defined.

Lemma package_not_found_only_when_reported_witness :
  py "numpy" = py "numpy" /\ (None : option str) = None
  /\ exists c m output so se,
       _run_conda_command cpython scripted (numpy Absent None)
         [py "conda"; py "remove"; py "numpy"] (start [says_not_found])
       = (Raise (CondaCommandError c m output so se),
          {| world := []; issued := [[py "conda"; py "remove"; py "numpy"]] |})
       /\ has_not_found_marker output = true.
Proof.
  refine (proj1 (@package_not_found_only_when_reported script cpython scripted
                   (numpy Absent None) (py "numpy") None
                   [py "conda"; py "remove"; py "numpy"]
                   (start [says_not_found])
                   {| world := [];
                      issued := [[py "conda"; py "remove"; py "numpy"]] |})
                (py "numpy") None _).
  vm_compute. reflexivity.
Defined.

(** ** The reconciler *)

Section ReconcilerMore.

Variable World : Type.
Variable lim : limits.
Variable run_process : World -> command -> (Z * str * str) * World.
Variable find_executable : str -> option str.
Variable isfile : str -> bool.

#[local] Abbreviation find_conda := (@_find_conda World find_executable isfile).
#[local] Abbreviation package_command := (_run_conda_package_command lim run_process).
#[local] Abbreviation check_installed := (_check_package_installed lim run_process).
#[local] Abbreviation install := (_install_package lim run_process).
#[local] Abbreviation uninstall := (_uninstall_package lim run_process).
#[local] Abbreviation main' := (main lim run_process find_executable isfile).

Lemma classify_dry_run_ok (output : pyval) (stderr : str) (b : bool) :
  classify_dry_run output stderr = Ok b ->
  if b then py_getitem output (py "message") = Ok (PyStr already_installed_message)
  else exists actions n,
         py_getitem output (py "actions") = Ok actions
         /\ py_len actions = Ok n /\ 0 < n.
Proof.
  unfold classify_dry_run.
  assert (Hact : rbind (py_in (py "actions") output) (fun has_actions =>
                 rbind (if has_actions
                        then rbind (py_getitem output (py "actions"))
                               (fun actions =>
                                rbind (py_len actions) (fun n => Ok (0 <? n)))
                        else Ok false) (fun actions_planned =>
                 if actions_planned then Ok false
                 else Raise (CondaUnexpectedOutputError output stderr)))
                 = Ok b ->
                 b = false
                 /\ exists actions n,
                      py_getitem output (py "actions") = Ok actions
                      /\ py_len actions = Ok n /\ 0 < n).
  { destruct (py_in (py "actions") output) as [[|]|]; cbn [rbind];
      try discriminate.
    destruct (py_getitem output (py "actions")) as [a|]; cbn [rbind];
      [|discriminate].
    destruct (py_len a) as [n|] eqn:Hn; cbn [rbind]; [|discriminate].
    destruct (0 <? n) eqn:Hpos; [|discriminate].
    intros [= <-]. split; [reflexivity|]. exists a, n.
    apply Nat.ltb_lt in Hpos. auto. }
  destruct (py_in (py "message") output) as [[|]|]; cbn [rbind];
    try discriminate.
  - destruct (py_getitem output (py "message")) as [m|]; cbn [rbind];
      [|discriminate].
    destruct (py_eq_str m already_installed_message) eqn:Hm.
    + intros [= <-]. apply py_eq_str_true in Hm. now subst.
    + intros H. destruct (Hact H) as [-> H']. exact H'.
  - intros H. destruct (Hact H) as [-> H']. exact H'.
Qed.

(** X13. What an answer of [_check_package_installed] means: it returns
    only when the package-scoped dry-run query returned an output; [True]
    only when that output's [message] is exactly ['All requested packages
    already installed.'], and [False] only when its [actions] entry has a
    length that is not zero. *)
Theorem check_answer_meaning (module : AnsibleModule) (conda name : str)
    (version : option str) (s s' : mstate World) (b : bool) :
  check_installed module conda name version s = (Ok b, s') ->
  exists output stderr,
    package_command module name version (query_command conda name version) s
    = (Ok (output, stderr), s')
    /\ if b
       then py_getitem output (py "message")
            = Ok (PyStr already_installed_message)
       else exists actions n,
              py_getitem output (py "actions") = Ok actions
              /\ py_len actions = Ok n /\ 0 < n.
Proof.
  rewrite check_package_installed_eq.
  destruct (package_command module name version
              (query_command conda name version) s)
    as [[[output stderr]|e] s1]; cbn [fst snd rbind]; [|discriminate].
  intros [= H <-]. exists output, stderr. split; [reflexivity|].
  exact (classify_dry_run_ok output stderr b H).
Qed.

(** X14. The query is a dry run: [_check_package_installed] runs exactly
    one command line, and whatever channels and extra arguments are
    injected it holds [install], [--json], [--dry-run] and the install
    target. *)
Theorem query_is_a_dry_run (module : AnsibleModule) (conda name : str)
    (version : option str) (s : mstate World) :
  exists cmd,
    issued (snd (check_installed module conda name version s))
    = issued s ++ [cmd]
    /\ In (py "install") cmd /\ In (py "--json") cmd
    /\ In (py "--dry-run") cmd
    /\ In (get_install_target name version) cmd.
Proof.
  exists (final_command module (query_command conda name version)).
  split.
  - rewrite check_package_installed_eq. cbn [snd].
    rewrite run_conda_package_command_eq. cbn [snd].
    now rewrite run_conda_command_state.
  - repeat split; apply final_command_keeps; simpl; auto 6.
Qed.

Lemma install_package_eq (module : AnsibleModule) (conda name : str)
    (version : option str) (s : mstate World) :
  install module conda name version s
  = (match fst (package_command module name version
                  (install_command (check_mode module) conda name version) s)
     with
     | Ok (output, stderr) =>
         Raise (SystemExit (installed_report name version output stderr))
     | Raise e => Raise e
     end,
     snd (package_command module name version
            (install_command (check_mode module) conda name version) s)).
Proof.
  unfold _install_package, install_command, installed_report, bind, exit_json,
    raise.
  destruct (check_mode module); cbn [insert_before_last removelast last app];
    destruct (package_command _ _ _ _ _) as [[[output stderr]|e] s'];
    reflexivity.
Qed.

Lemma uninstall_package_eq (module : AnsibleModule) (conda name : str)
    (s : mstate World) :
  uninstall module conda name s
  = (match fst (package_command module name None
                  (remove_command (check_mode module) conda name) s)
     with
     | Ok (output, stderr) =>
         Raise (SystemExit (removed_report output stderr))
     | Raise e => Raise e
     end,
     snd (package_command module name None
            (remove_command (check_mode module) conda name) s)).
Proof.
  unfold _uninstall_package, remove_command, removed_report, bind, exit_json,
    raise.
  destruct (check_mode module); cbn [insert_before_last removelast last app];
    destruct (package_command _ _ _ _ _) as [[[output stderr]|e] s'];
    reflexivity.
Qed.

Lemma package_command_state (module : AnsibleModule) (name : str)
    (version : option str) (cmd : command) (s : mstate World) :
  issued (snd (package_command module name version cmd s))
  = issued s ++ [final_command module cmd].
Proof.
  rewrite run_conda_package_command_eq. cbn [snd].
  now rewrite run_conda_command_state.
Qed.

Lemma dry_run_in_command (check : bool) (conda name : str)
    (version : option str) :
  (In (py "--dry-run") (install_command check conda name version)
   <-> check = true \/ conda = py "--dry-run"
       \/ get_install_target name version = py "--dry-run")
  /\ (In (py "--dry-run") (remove_command check conda name)
      <-> check = true \/ conda = py "--dry-run" \/ name = py "--dry-run").
Proof.
  unfold install_command, remove_command.
  destruct check; simpl; split; split; intros H;
    repeat match goal with
           | H : _ \/ _ |- _ => destruct H as [H|H]
           end; try discriminate; try contradiction; auto 10.
Qed.

Lemma install_state (module : AnsibleModule)
    (conda name : str) (version : option str) (s : mstate World) :
  issued (snd (install module conda name version s))
  = issued s
    ++ [final_command module
          (install_command (check_mode module) conda name version)].
Proof. rewrite install_package_eq. apply package_command_state. Qed.

Lemma uninstall_state (module : AnsibleModule)
    (conda name : str) (s : mstate World) :
  issued (snd (uninstall module conda name s))
  = issued s
    ++ [final_command module (remove_command (check_mode module) conda name)].
Proof. rewrite uninstall_package_eq. apply package_command_state. Qed.

(** X15. [_install_package] runs exactly one command line:
    [conda install --yes --json target] after injection, with [--dry-run]
    put before the target in check mode.  It never returns: when the
    package-scoped command returns an output it exits with [changed=True],
    the name, the version, that output and the stderr; when it raises, the
    exception leaves [_install_package] as it is. *)
Theorem install_exits_changed_or_raises (module : AnsibleModule)
    (conda name : str) (version : option str) (s : mstate World) :
  let cmd := install_command (check_mode module) conda name version in
  issued (snd (install module conda name version s))
  = issued s ++ [final_command module cmd]
  /\ (forall output stderr s',
        package_command module name version cmd s = (Ok (output, stderr), s') ->
        install module conda name version s
        = (Raise (SystemExit (installed_report name version output stderr)), s'))
  /\ (forall e s',
        package_command module name version cmd s = (Raise e, s') ->
        install module conda name version s = (Raise e, s')).
Proof.
  cbv zeta. rewrite install_package_eq. cbn [snd].
  split; [apply package_command_state|].
  split; intros; match goal with H : _ = (_, _) |- _ => rewrite H end;
    reflexivity.
Qed.

(** X16. [_uninstall_package] runs exactly one command line:
    [conda remove --yes --json name] after injection, with [--dry-run] put
    before the name in check mode, and no version.  It never returns: when
    the package-scoped command returns an output it exits with
    [changed=True], that output and the stderr; when it raises, the
    exception leaves [_uninstall_package] as it is. *)
Theorem uninstall_exits_changed_or_raises (module : AnsibleModule)
    (conda name : str) (s : mstate World) :
  let cmd := remove_command (check_mode module) conda name in
  issued (snd (uninstall module conda name s))
  = issued s ++ [final_command module cmd]
  /\ (forall output stderr s',
        package_command module name None cmd s = (Ok (output, stderr), s') ->
        uninstall module conda name s
        = (Raise (SystemExit (removed_report output stderr)), s'))
  /\ (forall (e : exn) s',
        package_command module name None cmd s = (Raise e, s') ->
        uninstall module conda name s = (Raise e, s')).
Proof.
  cbv zeta. rewrite uninstall_package_eq. cbn [snd].
  split; [apply package_command_state|].
  split; intros; match goal with H : _ = (_, _) |- _ => rewrite H end;
    reflexivity.
Qed.

Ltac result_cases :=
  repeat (cbn [rbind py_in py_getitem py_len is_none is_exit dict_has];
          match goal with
          | |- Raise _ = Raise _ -> _ => intros [= <-]; reflexivity
          | |- Ok _ = Raise _ -> _ => discriminate
          | |- context [py_in _ ?v] => is_var v; destruct v
          | |- context [py_getitem ?v _] => is_var v; destruct v
          | |- context [py_len ?v] => is_var v; destruct v
          | |- context [match ?x with _ => _ end] => destruct x
          end).

Lemma is_package_not_found_no_exit (output : pyval) (e : exn) :
  is_package_not_found output = Raise e -> is_exit e = false.
Proof. unfold is_package_not_found. destruct output; result_cases. Qed.

Lemma classify_dry_run_no_exit (output : pyval) (stderr : str) (e : exn) :
  classify_dry_run output stderr = Raise e -> is_exit e = false.
Proof. unfold classify_dry_run. result_cases. Qed.

Lemma package_command_no_exit (module : AnsibleModule) (name : str)
    (version : option str) (cmd : command) (s : mstate World) (e : exn) :
  fst (package_command module name version cmd s) = Raise e ->
  is_exit e = false.
Proof.
  rewrite run_conda_package_command_eq, run_conda_command_eq. cbn [fst].
  destruct (runner_outcome _ _) as [r|e0] eqn:Hr; cbn [package_outcome];
    [discriminate|].
  destruct (runner_outcome_raise _ _ _ _ Hr)
    as [->|[->|(m & o & so & se & ->)]].
  - now intros [= <-].
  - now intros [= <-].
  - destruct (is_package_not_found o) as [[|]|e1] eqn:Hnf; cbn [rbind].
    + now intros [= <-].
    + now intros [= <-].
    + intros [= <-]. exact (is_package_not_found_no_exit _ _ Hnf).
Qed.

Lemma check_installed_no_exit (module : AnsibleModule) (conda name : str)
    (version : option str) (s : mstate World) (e : exn) :
  fst (check_installed module conda name version s) = Raise e ->
  is_exit e = false.
Proof.
  rewrite check_package_installed_eq. cbn [fst].
  destruct (fst (package_command _ _ _ _ _)) as [[output stderr]|e0] eqn:Hp;
    cbn [rbind].
  - apply classify_dry_run_no_exit.
  - intros [= <-]. exact (package_command_no_exit _ _ _ _ _ _ Hp).
Qed.

(** The command lines of a run of [main], and how a run of at most one
    command ends. *)
Lemma main_shapes (module : AnsibleModule) (s0 : mstate World) :
  let p := module_params module in
  let final := main' module s0 in
  (issued (snd final) = issued s0
   /\ exists msg, fst final = Raise (SystemExit (FailJson msg)))
  \/ exists conda,
       fst (find_conda (executable p) s0) = Ok conda
       /\ let query :=
            final_command module (query_command conda (name p) (version p)) in
          (issued (snd final) = issued s0 ++ [query]
           /\ (fst final = unchanged
               \/ exists e, fst final = Raise e /\ is_exit e = false))
          \/ (issued (snd final)
              = issued s0
                ++ [query;
                    final_command module
                      (install_command (check_mode module) conda (name p)
                         (version p))]
              /\ state p <> Absent)
          \/ (issued (snd final)
              = issued s0
                ++ [query;
                    final_command module
                      (remove_command (check_mode module) conda (name p))]
              /\ state p = Absent).
Proof.
  intros p final.
  pose proof (find_conda_state World find_executable isfile (executable p) s0)
    as Hs.
  destruct (find_conda (executable p) s0) as [[conda|e] s1] eqn:Hfind;
    cbn [snd] in Hs; subst s1.
  2:{ left.
      assert (Hmain : final = (Raise e, s0)).
      { subst final. unfold main. fold p. unfold bind at 1.
        now rewrite Hfind. }
      rewrite Hmain. cbn [fst snd]. split; [reflexivity|].
      revert Hfind. unfold _find_conda, fail_json, raise, ret.
      destruct (executable p) as [[|c path]|];
        [destruct (find_executable (py "conda")) as [[|c' conda']|]
        |destruct (isfile (c :: path))
        |destruct (find_executable (py "conda")) as [[|c' conda']|]];
        intros H; inversion H; eauto. }
  destruct (is_latest (state p) && is_some (version p)) eqn:Hok.
  { left.
    assert (Hmain : final
                    = (Raise (SystemExit (FailJson version_conflict_message)),
                       s0)).
    { subst final. unfold main. fold p. unfold bind at 1. rewrite Hfind.
      unfold bind at 1. now rewrite Hok. }
    rewrite Hmain. cbn [fst snd]. eauto. }
  right. exists conda. split; [reflexivity|]. cbv zeta.
  subst final. rewrite (main_after_check World lim run_process find_executable isfile module
             conda s0 s0 Hfind Hok). fold p.
  pose proof (check_installed_state World lim run_process module conda (name p)
                (version p) s0) as Hq.
  pose proof (check_installed_no_exit module conda (name p) (version p) s0)
    as Hne.
  destruct (check_installed module conda (name p) (version p) s0)
    as [[installed|e] s2]; cbn [fst snd] in *.
  2:{ left. split; [exact Hq|]. right. eauto. }
  destruct (negb installed && negb (is_absent (state p))) eqn:Einst.
  - right. left.
    apply andb_true_iff in Einst as [_ Hab]. apply negb_true_iff in Hab.
    split; [|intros Hst; rewrite Hst in Hab; discriminate].
    pose proof (install_state module conda (name p) (version p) s2) as Hi.
    destruct (install module conda (name p) (version p) s2) as [[[]|e] s3];
      cbn [snd] in *; rewrite Hi, Hq, <- app_assoc; reflexivity.
  - destruct (is_absent (state p)) eqn:Hab.
    + right. right.
      split; [|destruct (state p); [discriminate|reflexivity|discriminate]].
      pose proof (uninstall_state module conda (name p) s2) as Hu.
      destruct (uninstall module conda (name p) s2) as [[[]|e] s3];
        cbn [snd] in *; [|destruct e]; cbn [snd];
        rewrite Hu, Hq, <- app_assoc; reflexivity.
    + left. cbn [fst snd]. split; [exact Hq|]. now left.
Qed.

(** X17. The command lines of a run of [main], whatever the process
    answers: none; or the dry-run query alone; or the query followed by one
    install command, only when the desired state is not absent; or the
    query followed by one remove command, only when it is absent.  Never
    more than two, never an install and a remove, and no install or remove
    before the query. *)
Theorem main_runs_query_then_at_most_one (module : AnsibleModule)
    (s0 : mstate World) :
  let p := module_params module in
  let final := main' module s0 in
  issued (snd final) = issued s0
  \/ exists conda,
       fst (find_conda (executable p) s0) = Ok conda
       /\ let query :=
            final_command module (query_command conda (name p) (version p)) in
          issued (snd final) = issued s0 ++ [query]
          \/ (issued (snd final)
              = issued s0
                ++ [query;
                    final_command module
                      (install_command (check_mode module) conda (name p)
                         (version p))]
              /\ state p <> Absent)
          \/ (issued (snd final)
              = issued s0
                ++ [query;
                    final_command module
                      (remove_command (check_mode module) conda (name p))]
              /\ state p = Absent).
Proof.
  intros p final.
  destruct (main_shapes module s0) as [[H _]|(conda & Hc & H)];
    [left; exact H|].
  right. exists conda. split; [exact Hc|]. cbv zeta in *.
  destruct H as [[H _]|[H|H]]; auto.
Qed.

(** X18. In check mode every command line [main] runs holds [--dry-run],
    whatever the desired state and whatever the process answers. *)
Theorem check_mode_runs_only_dry_runs (module : AnsibleModule)
    (s0 : mstate World) :
  check_mode module = true ->
  exists cmds,
    issued (snd (main' module s0)) = issued s0 ++ cmds
    /\ all_dry_runs cmds.
Proof.
  intros Hcheck. unfold all_dry_runs.
  assert (Hq : forall conda n v,
             In (py "--dry-run") (final_command module (query_command conda n v)))
    by (intros; apply final_command_keeps; simpl; auto).
  assert (Hi : forall conda n v,
             In (py "--dry-run")
               (final_command module (install_command true conda n v)))
    by (intros; apply final_command_keeps; simpl; auto 6).
  assert (Hr : forall conda n,
             In (py "--dry-run")
               (final_command module (remove_command true conda n)))
    by (intros; apply final_command_keeps; simpl; auto 6).
  destruct (main_shapes module s0) as [[H _]|(conda & _ & H)].
  - exists []. rewrite app_nil_r. auto.
  - cbv zeta in H. rewrite Hcheck in H.
    destruct H as [[H _]|[[H _]|[H _]]]; eexists; (split; [exact H|]);
      repeat constructor; auto.
Qed.

(** X19. [main] reports [changed=True] only after a second command line:
    the query was followed by the install or by the remove command. *)
Theorem change_needs_second_command (module : AnsibleModule)
    (s0 : mstate World) :
  let p := module_params module in
  reports_change (fst (main' module s0)) ->
  exists conda cmd,
    issued (snd (main' module s0))
    = issued s0
      ++ [final_command module (query_command conda (name p) (version p));
          final_command module cmd]
    /\ (cmd = install_command (check_mode module) conda (name p) (version p)
        \/ cmd = remove_command (check_mode module) conda (name p)).
Proof.
  intros p (kwargs & Hexit & Hchanged).
  destruct (main_shapes module s0) as [[_ [msg H]]|(conda & _ & H)].
  - rewrite H in Hexit. discriminate.
  - cbv zeta in H. fold p in H.
    destruct H as [[_ [H|(e & H & He)]]|[[H _]|[H _]]]; eauto 6.
    + rewrite H in Hexit. unfold unchanged in Hexit.
      injection Hexit as <-. vm_compute in Hchanged. discriminate.
    + rewrite H in Hexit. injection Hexit as ->. discriminate.
Qed.

(** X20. When the query answers that the package is not installed and the
    desired state is not absent, [main] ends as the install command does:
    with [changed=True], the name, the version, the output and the stderr
    when the command returns an output, and with its exception, whichever
    it is, when it raises. *)
Theorem missing_package_is_installed (module : AnsibleModule) (conda : str)
    (s0 s1 s2 : mstate World) :
  let p := module_params module in
  let cmd := install_command (check_mode module) conda (name p) (version p) in
  find_conda (executable p) s0 = (Ok conda, s1) ->
  is_latest (state p) && is_some (version p) = false ->
  check_installed module conda (name p) (version p) s1 = (Ok false, s2) ->
  state p <> Absent ->
  (forall output stderr s3,
     package_command module (name p) (version p) cmd s2
     = (Ok (output, stderr), s3) ->
     main' module s0
     = (Raise (SystemExit
                 (installed_report (name p) (version p) output stderr)), s3))
  /\ (forall e s3,
        package_command module (name p) (version p) cmd s2 = (Raise e, s3) ->
        main' module s0 = (Raise e, s3)).
Proof.
  intros p cmd Hfind Hok Hcheck Hstate.
  rewrite (main_after_check World lim run_process find_executable isfile module
             conda s0 s1 Hfind Hok). fold p.
  rewrite Hcheck.
  assert (Hab : is_absent (state p) = false)
    by (destruct (state p); [reflexivity|congruence|reflexivity]).
  rewrite Hab. cbn [negb andb]. rewrite install_package_eq. fold cmd.
  split; intros; match goal with H : _ = (_, _) |- _ => rewrite H end;
    reflexivity.
Qed.

(** X21. With desired state absent [main] runs the remove command whatever
    the query answered, installed or not, and without the version: it ends
    with [changed=True], the output and the stderr when the command returns
    an output, and with its exception when it raises another one than
    [CondaPackageNotFoundError]. *)
Theorem absent_always_removes (module : AnsibleModule) (conda : str)
    (installed : bool) (s0 s1 s2 : mstate World) :
  let p := module_params module in
  let cmd := remove_command (check_mode module) conda (name p) in
  find_conda (executable p) s0 = (Ok conda, s1) ->
  state p = Absent ->
  check_installed module conda (name p) (version p) s1 = (Ok installed, s2) ->
  (forall output stderr s3,
     package_command module (name p) None cmd s2 = (Ok (output, stderr), s3) ->
     main' module s0 = (Raise (SystemExit (removed_report output stderr)), s3))
  /\ (forall e s3,
        package_command module (name p) None cmd s2 = (Raise e, s3) ->
        (forall n v, e <> CondaPackageNotFoundError n v) ->
        main' module s0 = (Raise e, s3)).
Proof.
  intros p cmd Hfind Hstate Hcheck.
  assert (Hok : is_latest (state p) && is_some (version p) = false)
    by (rewrite Hstate; reflexivity).
  rewrite (main_after_check World lim run_process find_executable isfile module
             conda s0 s1 Hfind Hok). fold p.
  rewrite Hcheck, Hstate. cbn [is_absent negb]. rewrite andb_false_r.
  rewrite uninstall_package_eq. fold cmd.
  split.
  - intros output stderr s3 H. rewrite H. reflexivity.
  - intros e s3 H Hne. rewrite H. cbn [fst snd].
    destruct e as [| | | | n v | |]; try reflexivity. now elim (Hne n v).
Qed.

End ReconcilerMore.

Lemma check_answer_meaning_witness :
  exists output stderr,
    _run_conda_package_command cpython scripted (numpy Present None) (py "numpy") None
      (query_command (py "/bin/conda") (py "numpy") None) (start [says_actions])
    = (Ok (output, stderr),
       {| world := [];
          issued := [query_command (py "/bin/conda") (py "numpy") None] |})
    /\ exists actions n,
         py_getitem output (py "actions") = Ok actions
         /\ py_len actions = Ok n /\ 0 < n.
Proof.
  refine (@check_answer_meaning script cpython scripted (numpy Present None)
            (py "/bin/conda") (py "numpy") None (start [says_actions]) _
            false _).
  vm_compute. reflexivity.
Defined.

Lemma check_mode_runs_only_dry_runs_witness :
  exists cmds,
    issued (snd (run_main cpython scripted on_path no_file (numpy_check Present)
                   [says_actions; says_removed]))
    = [] ++ cmds
    /\ all_dry_runs cmds.
Proof.
  exact (@check_mode_runs_only_dry_runs script cpython scripted on_path no_file
           (numpy_check Present) (start [says_actions; says_removed])
           eq_refl).
Defined.

Lemma change_needs_second_command_witness :
  exists conda cmd,
    issued (snd (run_main cpython scripted on_path no_file (numpy Present None)
                   [says_actions; says_removed]))
    = [] ++ [final_command (numpy Present None)
               (query_command conda (py "numpy") None);
             final_command (numpy Present None) cmd]
    /\ (cmd = install_command false conda (py "numpy") None
        \/ cmd = remove_command false conda (py "numpy")).
Proof.
  refine (@change_needs_second_command script cpython scripted on_path no_file
            (numpy Present None) (start [says_actions; says_removed]) _).
  exists [(py "changed", PyBool true); (py "name", PyStr (py "numpy"));
          (py "version", PyNone);
          (py "output", PyDict [(py "success", PyBool true)]);
          (py "error", PyStr (py "done"))].
  split; vm_compute; reflexivity.
Defined.

Lemma missing_package_is_installed_witness :
  run_main cpython scripted on_path no_file (numpy Present None)
    [says_actions; says_removed]
  = (Raise (SystemExit
              (installed_report (py "numpy") None
                 (PyDict [(py "success", PyBool true)]) (py "done"))),
     {| world := [];
        issued := [query_command (py "/bin/conda") (py "numpy") None;
                   install_command false (py "/bin/conda") (py "numpy") None]
     |}).
Proof.
  refine (proj1 (@missing_package_is_installed script cpython scripted on_path no_file
                   (numpy Present None) (py "/bin/conda")
                   (start [says_actions; says_removed])
                   (start [says_actions; says_removed]) _ _ _ _ _)
                _ _ _ _).
  - reflexivity.
  - reflexivity.
  - vm_compute. reflexivity.
  - discriminate.
  - vm_compute. reflexivity.
Defined.

Lemma absent_always_removes_witness :
  run_main cpython scripted on_path no_file (numpy Absent None)
    [says_actions; says_removed]
  = (Raise (SystemExit
              (removed_report (PyDict [(py "success", PyBool true)])
                 (py "done"))),
     {| world := [];
        issued := [query_command (py "/bin/conda") (py "numpy") None;
                   remove_command false (py "/bin/conda") (py "numpy")] |}).
Proof.
  refine (proj1 (@absent_always_removes script cpython scripted on_path no_file
                   (numpy Absent None) (py "/bin/conda") false
                   (start [says_actions; says_removed])
                   (start [says_actions; says_removed]) _ _ _ _)
                _ _ _ _).
  - reflexivity.
  - reflexivity.
  - vm_compute. reflexivity.
  - vm_compute. reflexivity.
Defined.
